(** * Financial_Hub_Platform: benchmark keys, visit-weighted rates, variances

    A shallow embedding of the batch scripts of the repository
    (pandas pipelines over in-memory tables) and the properties their
    specification states about them.

    Conventions of the embedding:
    - a table (DataFrame) is a list of row records, in load order;
    - a text cell is a [cell]: [Missing] is pandas' NaN/None, [Str s] a value
      whose Python [str()] is [s]; a character is a code point below 256;
    - a float64 cell is a [float]: an exact rational, an infinity or NaN.
      Rounding error and the sign of zero are outside the model; NaN, the
      infinities and division by zero behave as in IEEE 754 / numpy.
      Module [Binary64] evaluates the sample values of the specification
      on IEEE doubles as well;
    - a step that raises a Python exception returns [None]. *)

From Stdlib Require Import List String Ascii Bool Arith ZArith NArith QArith Qround.
From Stdlib Require Import Lia Lqa Permutation Sorted DecimalString.
From Stdlib Require PrimFloat.
Import ListNotations.

Set Implicit Arguments.

(* ================================================================= *)
(** ** Python built-ins on [str] and [list] *)

Module Py.

Open Scope string_scope.

Definition str_leb (a b : string) : bool := String.leb a b.

Section Sorting.
Variable A : Type.
Variable leb : A -> A -> bool.

Fixpoint insert (x : A) (l : list A) : list A :=
  match l with
  | [] => [x]
  | y :: l' => if leb x y then x :: y :: l' else y :: insert x l'
  end.

(** [sorted(l)] for a key-less sort: stable, ascending. *)
Fixpoint sort (l : list A) : list A :=
  match l with
  | [] => []
  | x :: l' => insert x (sort l')
  end.
End Sorting.

(** [sorted(x)] on a collection of [str]. *)
Definition sorted (l : list string) : list string := sort str_leb l.


(** [set(x)]: the distinct elements of [x] (iteration order is not
    specified by Python; every use below sorts the result). *)
Definition set_ (l : list string) : list string := nodup string_dec l.

(** [sep.join(parts)] *)
Definition join (sep : string) (parts : list string) : string :=
  String.concat sep parts.

(** *** [repr] of a [str] and [str] of a [list] of [str] *)

Definition chr (n : N) : ascii := ascii_of_N n.
Definition ord (c : ascii) : N := N_of_ascii c.

Definition str_contains (c : ascii) (s : string) : bool :=
  existsb (Ascii.eqb c) (list_ascii_of_string s).

Definition hex_digit (n : N) : ascii :=
  if (n <? 10)%N then chr (48 + n) else chr (87 + n).

Definition hex_escape (c : ascii) : string :=
  String "\" (String "x" (String (hex_digit (ord c / 16))
                          (String (hex_digit (ord c mod 16)) ""))).

(** [str.isprintable] on one character below 256. *)
Definition isprintable (c : ascii) : bool :=
  let n := ord c in
  ((32 <=? n) && (n <? 127) || (161 <=? n) && negb (n =? 173))%N.

Definition repr_char (quote c : ascii) : string :=
  if Ascii.eqb c quote || Ascii.eqb c "\" then String "\" (String c "")
  else if (ord c =? 9)%N then "\t"
  else if (ord c =? 10)%N then "\n"
  else if (ord c =? 13)%N then "\r"
  else if isprintable c then String c ""
  else hex_escape c.

Definition squote : ascii := chr 39.
Definition dquote : ascii := chr 34.

Definition repr_quote (s : string) : ascii :=
  if str_contains squote s && negb (str_contains dquote s) then dquote
  else squote.

(** [repr(s)] *)
Definition repr (s : string) : string :=
  let q := repr_quote s in
  String q (String.concat "" (map (repr_char q) (list_ascii_of_string s))
            ++ String q "").

(** [str(l)] for a list of [str]. *)
Definition str_list (l : list string) : string :=
  "[" ++ join ", " (map repr l) ++ "]".

(** *** [str.strip()] *)

Definition isspace (c : ascii) : bool :=
  let n := ord c in
  ((9 <=? n) && (n <=? 13) || (28 <=? n) && (n <=? 32)
   || (n =? 133) || (n =? 160))%N.

Fixpoint lstrip_chars (l : list ascii) : list ascii :=
  match l with
  | [] => []
  | c :: l' => if isspace c then lstrip_chars l' else l
  end.

Definition strip (s : string) : string :=
  string_of_list_ascii
    (rev (lstrip_chars (rev (lstrip_chars (list_ascii_of_string s))))).

(** [str(n)] for an [int]. *)
Definition str_int (z : Z) : string := NilZero.string_of_int (Z.to_int z).

End Py.

(* ================================================================= *)
(** ** float64 values *)

Module Float.

Inductive float : Type :=
| Fin (q : Q)        (* a finite value *)
| Inf (neg : bool)   (* +inf ([false]) or -inf ([true]) *)
| NaN.

Definition Qnegb (q : Q) : bool := (Qnum q <? 0)%Z.

Definition isnan (x : float) : bool :=
  match x with NaN => true | _ => false end.

Definition fopp (x : float) : float :=
  match x with
  | Fin q => Fin (- q)
  | Inf s => Inf (negb s)
  | NaN => NaN
  end.

Definition fadd (x y : float) : float :=
  match x, y with
  | NaN, _ | _, NaN => NaN
  | Fin a, Fin b => Fin (a + b)
  | Inf s, Fin _ | Fin _, Inf s => Inf s
  | Inf s, Inf t => if Bool.eqb s t then Inf s else NaN
  end.

Definition fsub (x y : float) : float := fadd x (fopp y).

Definition fmul (x y : float) : float :=
  match x, y with
  | NaN, _ | _, NaN => NaN
  | Fin a, Fin b => Fin (a * b)
  | Inf s, Fin q | Fin q, Inf s =>
      if Qeq_bool q 0 then NaN else Inf (xorb s (Qnegb q))
  | Inf s, Inf t => Inf (xorb s t)
  end.

Definition fdiv (x y : float) : float :=
  match x, y with
  | NaN, _ | _, NaN => NaN
  | Fin a, Fin b =>
      if Qeq_bool b 0
      then (if Qeq_bool a 0 then NaN else Inf (Qnegb a))
      else Fin (a / b)
  | Fin _, Inf _ => Fin 0
  | Inf s, Fin q => Inf (xorb s (Qnegb q))
  | Inf _, Inf _ => NaN
  end.

(** [x == y] *)
Definition feqb (x y : float) : bool :=
  match x, y with
  | Fin a, Fin b => Qeq_bool a b
  | Inf s, Inf t => Bool.eqb s t
  | _, _ => false
  end.

(** [x < y] *)
Definition fltb (x y : float) : bool :=
  match x, y with
  | NaN, _ | _, NaN => false
  | Fin a, Fin b => negb (Qle_bool b a)
  | Inf s, Fin _ => s
  | Fin _, Inf t => negb t
  | Inf s, Inf t => s && negb t
  end.

(** [x > y] *)
Definition fgtb (x y : float) : bool := fltb y x.

(** Equality of values up to the representation of the rational. *)
Definition feq (x y : float) : Prop :=
  match x, y with
  | Fin a, Fin b => a == b
  | Inf s, Inf t => s = t
  | NaN, NaN => True
  | _, _ => False
  end.

Definition of_Z (z : Z) : float := Fin (inject_Z z).
Definition of_nat (n : nat) : float := of_Z (Z.of_nat n).

(** [np.where(cond, a, b)] at one position: both operands are already
    computed, the condition selects. *)
Definition np_where (A : Type) (cond : bool) (a b : A) : A :=
  if cond then a else b.

Definition fsum (l : list float) : float := fold_left fadd l (Fin 0).

(** The sum of a list of rationals, for stating what a column sums to. *)
Definition Qsum (l : list Q) : Q := fold_right Qplus 0 l.

Definition dropna (l : list float) : list float :=
  filter (fun x => negb (isnan x)) l.

(** [Series.sum()] of pandas (NaN skipped, empty sum 0) and [np.nansum]. *)
Definition sum (l : list float) : float := fsum (dropna l).
Definition nansum (l : list float) : float := fsum (dropna l).

(** [Series.mean()]: NaN skipped, NaN when nothing is left. *)
Definition mean (l : list float) : float :=
  match dropna l with
  | [] => NaN
  | v => fdiv (fsum v) (of_nat (List.length v))
  end.

End Float.

Export Float(float, Fin, Inf, NaN).

Declare Scope fl_scope.
Delimit Scope fl_scope with fl.
Infix "+" := Float.fadd : fl_scope.
Infix "-" := Float.fsub : fl_scope.
Infix "*" := Float.fmul : fl_scope.
Infix "/" := Float.fdiv : fl_scope.
Infix "==?" := Float.feqb (at level 70) : fl_scope.
Infix "<?" := Float.fltb : fl_scope.
Infix ">?" := Float.fgtb : fl_scope.
Infix "=~" := Float.feq (at level 70) : fl_scope.

(* ================================================================= *)
(** ** pandas primitives *)

Module Pandas.

(** A text (object) cell. *)
Inductive cell : Type :=
| Missing
| Str (s : string).

(** [pd.isna] *)
Definition isna (c : cell) : bool :=
  match c with Missing => true | Str _ => false end.

(** [astype(str)] on one cell: Python's [str()], so NaN becomes ["nan"]
    (pandas before 3.0, the versions whose [fillna(method='ffill')] the
    scripts call). *)
Definition astype_str (c : cell) : string :=
  match c with Missing => "nan"%string | Str s => s end.

Definition cell_eqb (a b : cell) : bool :=
  match a, b with
  | Missing, Missing => true
  | Str s, Str t => String.eqb s t
  | _, _ => false
  end.

(** Order of group keys: ascending, NaN last. *)
Definition cell_leb (a b : cell) : bool :=
  match a, b with
  | _, Missing => true
  | Missing, Str _ => false
  | Str s, Str t => Py.str_leb s t
  end.

(** A blank cell. *)
Definition blank (c : cell) : Prop := c = Missing.

(** [Series.ffill()] *)
Fixpoint ffill_from (last : cell) (l : list cell) : list cell :=
  match l with
  | [] => []
  | Missing :: l' => last :: ffill_from last l'
  | Str s :: l' => Str s :: ffill_from (Str s) l'
  end.

Definition ffill (l : list cell) : list cell := ffill_from Missing l.

(** The nearest value at or before the end of [l], [last] when [l] holds
    none: what a forward fill is to leave in the last cell of [l]. *)
Fixpoint last_value (last : cell) (l : list cell) : cell :=
  match l with
  | [] => last
  | Missing :: l' => last_value last l'
  | Str s :: l' => last_value (Str s) l'
  end.

Section GroupBy.
Variables R K : Type.
Variable eqb : K -> K -> bool.
Variable leb : K -> K -> bool.
Variable key : R -> K.

(** [unique()]: distinct values in order of first appearance. *)
Fixpoint unique (l : list K) : list K :=
  match l with
  | [] => []
  | x :: l' => x :: filter (fun y => negb (eqb x y)) (unique l')
  end.

Definition group_rows (df : list R) (k : K) : list R :=
  filter (fun r => eqb (key r) k) df.

(** [df.groupby(key, dropna=False)]: one group per distinct key, the
    groups in ascending key order, the rows of a group in table order. *)
Definition groupby (df : list R) : list (K * list R) :=
  map (fun k => (k, group_rows df k)) (Py.sort leb (unique (map key df))).
End GroupBy.

(** [Series.nunique()]: distinct non-missing values. *)
Definition present (l : list cell) : list cell :=
  filter (fun c => negb (isna c)) l.

Definition nunique (l : list cell) : nat :=
  List.length (unique cell_eqb (present l)).

(** [Series.count()]: non-missing values. *)
Definition count (l : list cell) : nat := List.length (present l).

End Pandas.

Export Pandas(cell, Missing, Str).


(** A step that may raise: [None] is a Python exception ending the run. *)
Module Exn.

Fixpoint traverse (A B : Type) (f : A -> option B) (l : list A)
  : option (list B) :=
  match l with
  | [] => Some []
  | x :: l' =>
      match f x, traverse f l' with
      | Some y, Some ys => Some (y :: ys)
      | _, _ => None
      end
  end.

End Exn.

(* ================================================================= *)
(** ** scripts/invoice_benchmark_code_v10_updated.py
       (Steps 1 to 3 are also the whole of invoice_benchmark_code_v11) *)

Module BenchmarkV10.
Import Pandas.
Open Scope string_scope.

(** A detail row. [T] is the type of the key cells: [cell] as loaded from
    the spreadsheet, [string] once Step 1 has cast them with [astype(str)]. *)
Record Row (T : Type) : Type := mkRow {
  Invoice_Number : T;
  Payer : T;
  Group_EM : T;
  Group_EM2 : T;
  Charge_CPT_Code : T;          (* "Charge CPT Code" *)
  Payment_Amount : float        (* "Payment Amount*" *)
}.

Definition key_cols (T : Type) (r : Row T) : list T :=
  [Invoice_Number r; Payer r; Group_EM r; Group_EM2 r; Charge_CPT_Code r].

(** Step 1: [df_inv[key_cols].astype(str).apply(lambda x: x.str.strip())] *)
Definition normalize_cell (c : cell) : string := Py.strip (astype_str c).

Definition normalize (r : Row cell) : Row string :=
  mkRow (normalize_cell (Invoice_Number r)) (normalize_cell (Payer r))
        (normalize_cell (Group_EM r)) (normalize_cell (Group_EM2 r))
        (normalize_cell (Charge_CPT_Code r)) (Payment_Amount r).

Definition step1 (df : list (Row cell)) : list (Row string) :=
  map normalize df.

(** Step 2: [invalid_mask = df_inv[key_cols].isna().any(axis=1)], taken on
    the table Step 1 produced, whose key cells are all [str] objects. *)
Definition invalid_mask (r : Row string) : bool :=
  existsb isna (map Str (key_cols r)).

Definition validation_report (df : list (Row string)) : list (Row string) :=
  filter invalid_mask df.

Definition step2 (df : list (Row string)) : list (Row string) :=
  filter (fun r => negb (invalid_mask r)) df.

(** Step 3: the CPT list of every invoice and the two keys. *)
Record CptList : Type := mkCptList {
  cl_Invoice_Number : string;
  CPT_List : list string;
  CPT_List_Str : string
}.

Definition cpt_list_df (df : list (Row string)) : list CptList :=
  map (fun g =>
         let l := Py.sorted (Py.set_ (map (@Charge_CPT_Code string) (snd g))) in
         mkCptList (fst g) l (Py.str_list l))
      (groupby String.eqb Py.str_leb (@Invoice_Number string) df).

(** [merge(cpt_list_df, on="Invoice_Number", how="left")]: the right table
    has one row per invoice, so a left row meets at most one of them. *)
Definition merge_cpt_list (right : list CptList) (r : Row string)
  : option CptList :=
  find (fun e => String.eqb (cl_Invoice_Number e) (Invoice_Number r)) right.

Record KeyedRow : Type := mkKeyedRow {
  base : Row string;
  row_CPT_List_Str : string;
  Benchmark_Key : string;
  Abbreviate_Benchmark_Key : string
}.

Definition key_parts (r : Row string) (cpt_list_str : string) : list string :=
  [Payer r; Group_EM r; Group_EM2 r; cpt_list_str].

(** A row the merge left without a CPT list would hold NaN there and
    ["|".join] would raise on it. *)
Definition add_keys (right : list CptList) (r : Row string) : option KeyedRow :=
  match merge_cpt_list right r with
  | Some e =>
      let parts := key_parts r (CPT_List_Str e) in
      Some (mkKeyedRow r (CPT_List_Str e)
                       (Py.join "|" parts)
                       (Py.join "|" (Invoice_Number r :: parts)))
  | None => None
  end.

Definition step3 (df : list (Row string)) : option (list KeyedRow) :=
  Exn.traverse (add_keys (cpt_list_df df)) df.

(** The codes charged on the invoice [inv], in table order, and the row
    Step 3 builds from them when the merge finds the invoice. *)
Definition codes_of (df : list (Row string)) (inv : string) : list string :=
  map (@Charge_CPT_Code string) (group_rows String.eqb (@Invoice_Number string) df inv).

Definition keyed_row (df : list (Row string)) (r : Row string) : KeyedRow :=
  let s := Py.str_list (Py.sorted (Py.set_ (codes_of df (Invoice_Number r)))) in
  mkKeyedRow r s (Py.join "|" (key_parts r s))
             (Py.join "|" (Invoice_Number r :: key_parts r s)).

(** Step 5 (the payment column): the mean payment of every benchmark key,
    merged back on the key. *)
Definition cpt_benchmark_df (df : list KeyedRow) : list (string * float) :=
  map (fun g => (fst g, Float.mean (map (fun r => Payment_Amount (base r)) (snd g))))
      (groupby String.eqb Py.str_leb Benchmark_Key df).

Definition Benchmark_Payment_Amount_within_invoice
  (bench : list (string * float)) (r : KeyedRow) : float :=
  match find (fun e => String.eqb (fst e) (Benchmark_Key r)) bench with
  | Some e => snd e
  | None => NaN
  end.

(** Step 6: row-level variance against the benchmark. *)
Definition Invoice_Payment_Diff_vs_Benchmark (payment benchmark : float) : float :=
  (payment - benchmark)%fl.

Definition Invoice_Payment_Pct_Diff_vs_Benchmark (payment benchmark : float) : float :=
  Float.np_where (benchmark ==? Fin 0)%fl
                 NaN
                 (Invoice_Payment_Diff_vs_Benchmark payment benchmark / benchmark)%fl.

Record VarianceRow : Type := mkVarianceRow {
  keyed : KeyedRow;
  row_Benchmark_Payment : float;
  row_Payment_Diff : float;
  row_Payment_Pct_Diff : float
}.

Definition step6 (df : list KeyedRow) : list VarianceRow :=
  let bench := cpt_benchmark_df df in
  map (fun r =>
         let p := Payment_Amount (base r) in
         let b := Benchmark_Payment_Amount_within_invoice bench r in
         mkVarianceRow r b (Invoice_Payment_Diff_vs_Benchmark p b)
                       (Invoice_Payment_Pct_Diff_vs_Benchmark p b))
      df.

(** The run: the main output (or an exception) and the validation report. *)
Definition invoice_level_index (raw : list (Row cell)) : option (list VarianceRow) :=
  option_map step6 (step3 (step2 (step1 raw))).

Definition validation_report_csv (raw : list (Row cell)) : list (Row string) :=
  validation_report (step1 raw).

End BenchmarkV10.

(* ================================================================= *)
(** ** revenue-analysis/scripts/CPT tracing code.py

    The table is taken after the numeric coercion loop (line 58). A column
    the file lacks is a column of NaN: both rebuild tests treat the two
    cases alike. *)

Module CptTracing.
Import Pandas.

Record Row : Type := mkRow {
  Payer : cell;
  Benchmark_Key : cell;
  Visit_Count : float;
  Payment_Amount : float;
  Expected_Payment : float;
  Actual_Rate_per_Visit : float;
  Expected_Amount_85_EM_invoice_level : float
}.

Definition isna_all (col : list float) : bool := forallb Float.isnan col.

(** Lines 61-62: rebuild the actual rate when the column holds no value. *)
Definition rebuild_actual (df : list Row) : list Row :=
  if isna_all (map Actual_Rate_per_Visit df)
  then map (fun r =>
              mkRow (Payer r) (Benchmark_Key r) (Visit_Count r)
                    (Payment_Amount r) (Expected_Payment r)
                    (Float.np_where (Visit_Count r ==? Fin 0)%fl NaN
                                    (Payment_Amount r / Visit_Count r)%fl)
                    (Expected_Amount_85_EM_invoice_level r)) df
  else df.

(** Lines 64-69: the same fallback for the expected rate. *)
Definition rebuild_expected (df : list Row) : list Row :=
  if isna_all (map Expected_Amount_85_EM_invoice_level df)
  then map (fun r =>
              mkRow (Payer r) (Benchmark_Key r) (Visit_Count r)
                    (Payment_Amount r) (Expected_Payment r)
                    (Actual_Rate_per_Visit r)
                    (Float.np_where (Visit_Count r ==? Fin 0)%fl NaN
                                    (Expected_Payment r / Visit_Count r)%fl)) df
  else df.

(** Lines 72-74: expected dollars and dollar variance, recomputed. *)
Definition Expected_Payment_Recalc (r : Row) : float :=
  (Expected_Amount_85_EM_invoice_level r * Visit_Count r)%fl.

Definition Revenue_Variance_Recalc (r : Row) : float :=
  (Payment_Amount r - Expected_Payment_Recalc r)%fl.

(** One row of a roll-up, for a group key of type [K]. *)
Record Rollup (K : Type) : Type := mkRollup {
  group_key : K;
  Total_Visits : float;
  Total_Payment_Amount : float;
  Total_Expected_Payment_vs_85EM : float;
  Dollar_Variance_vs_85EM : float;
  Weighted_Actual_Rate_per_Visit : float;
  Weighted_Expected_Rate_per_Visit : float;
  Rate_Diff_vs_85EM : float
}.

(** The numerators [_w_actual] and [_w_expected]:
    [np.nansum(s * df.loc[s.index, "Visit_Count"])] *)
Definition w_actual (rows : list Row) : float :=
  Float.nansum (map (fun r => (Actual_Rate_per_Visit r * Visit_Count r)%fl) rows).

Definition w_expected (rows : list Row) : float :=
  Float.nansum
    (map (fun r => (Expected_Amount_85_EM_invoice_level r * Visit_Count r)%fl) rows).

Definition total_visits (rows : list Row) : float :=
  Float.sum (map Visit_Count rows).

(** The aggregation of one group and the guarded divisions after it. *)
Definition rollup_group (K : Type) (k : K) (rows : list Row) : Rollup K :=
  let total := total_visits rows in
  let wa := Float.np_where (total ==? Fin 0)%fl NaN (w_actual rows / total)%fl in
  let we := Float.np_where (total ==? Fin 0)%fl NaN (w_expected rows / total)%fl in
  mkRollup k total
           (Float.sum (map Payment_Amount rows))
           (Float.sum (map Expected_Payment_Recalc rows))
           (Float.sum (map Revenue_Variance_Recalc rows))
           wa we (wa - we)%fl.

(** The table the roll-ups group: lines 61-69 applied. *)
Definition prepare (df : list Row) : list Row :=
  rebuild_expected (rebuild_actual df).

Section Rollup.
Variable K : Type.
Variable eqb : K -> K -> bool.
Variable leb : K -> K -> bool.
Variable key : Row -> K.

Definition rollup (df : list Row) : list (Rollup K) :=
  map (fun g => rollup_group (fst g) (snd g))
      (groupby eqb leb key (prepare df)).
End Rollup.

(** A) by [Benchmark_Key] (lines 90-114, before the ranking by dollar
    variance, which only reorders the rows). *)
Definition by_key (df : list Row) : list (Rollup cell) :=
  rollup cell_eqb cell_leb Benchmark_Key df.

(** B) by [Payer] and [Benchmark_Key]. *)
Definition pair_eqb (a b : cell * cell) : bool :=
  cell_eqb (fst a) (fst b) && cell_eqb (snd a) (snd b).

Definition pair_leb (a b : cell * cell) : bool :=
  if cell_eqb (fst a) (fst b) then cell_leb (snd a) (snd b)
  else cell_leb (fst a) (fst b).

Definition by_payer_key (df : list Row) : list (Rollup (cell * cell)) :=
  rollup pair_eqb pair_leb (fun r => (Payer r, Benchmark_Key r)) df.

End CptTracing.

(* ================================================================= *)
(** ** scripts/revenue_performance_model.py *)

Module RevenuePerformance.
Open Scope string_scope.

Record Row : Type := mkRow {
  Benchmark_Payment_Amount : float;
  Visit_Count : float;
  Payment_Amount : float
}.

(** Step 1 *)
Definition Expected_Payment (r : Row) : float :=
  (Benchmark_Payment_Amount r * Visit_Count r)%fl.

Definition Revenue_Variance (r : Row) : float :=
  (Payment_Amount r - Expected_Payment r)%fl.

(** Step 2 *)
Definition classify_performance (actual expected : float) : string :=
  if Float.isnan actual || Float.isnan expected || (expected ==? Fin 0)%fl
  then "No Data"
  else
    let diff_pct := ((actual - expected) / expected)%fl in
    if (diff_pct >? Fin (5 # 100))%fl then "Over Performing"
    else if (diff_pct <? Fin (- (5 # 100)))%fl then "Under Performing"
    else "Average Performance".



End RevenuePerformance.

(* ================================================================= *)
(** ** scripts/weekly_model_generator_v5.py
       (Step 2 is also Step 4 of generate_weekly_metrics.py)

    The columns kept are the group columns, the visit and dollar columns,
    the benchmark columns the derived metrics read and every column of
    [rate_cols]. The other means of Step 2 and the CPT count and
    coding-drift columns (Steps 4 and 7) feed none of them and are left
    out. *)

Module WeeklyV5.
Import Pandas.
Open Scope string_scope.

(** A row of the invoice-level index the script loads. *)
Module Invoice.
Record Row : Type := mkRow {
  Year : option Z;
  Week : option Z;
  Payer : cell;
  Group_EM : cell;
  Group_EM2 : cell;
  Benchmark_Key : cell;
  Invoice_Number : cell;
  Charge_Amount : float;                    (* "Charge Amount" *)
  Payment_Amount : float;                   (* "Payment Amount*" *)
  Zero_Balance_Collection_Rate : float;     (* "Zero Balance Collection Rate" *)
  Collection_Rate : float;                  (* "Collection Rate*" *)
  Denial_Percent : float;                   (* "Denial %" *)
  NRV_Gap_Percent : float;                  (* "NRV Gap (%)" *)
  Remaining_Charges_Percent : float;        (* "% of Remaining Charges" *)
  Benchmark_Zero_Balance_Collection_Rate : float;
  Benchmark_Collection_Rate : float;
  Benchmark_Invoice_Count : float;
  Expected_Amount_85_EM_invoice_level : float
}.
End Invoice.

(** The group key of Step 2. *)
Record GroupKey : Type := mkGroupKey {
  k_Year : option Z;
  k_Week : option Z;
  k_Payer : cell;
  k_Group_EM : cell;
  k_Group_EM2 : cell;
  k_Benchmark_Key : cell
}.

Definition group_key (r : Invoice.Row) : GroupKey :=
  mkGroupKey (Invoice.Year r) (Invoice.Week r) (Invoice.Payer r)
             (Invoice.Group_EM r) (Invoice.Group_EM2 r) (Invoice.Benchmark_Key r).

Definition num_eqb (a b : option Z) : bool :=
  match a, b with
  | None, None => true
  | Some x, Some y => (x =? y)%Z
  | _, _ => false
  end.

Definition num_leb (a b : option Z) : bool :=
  match a, b with
  | _, None => true
  | None, Some _ => false
  | Some x, Some y => (x <=? y)%Z
  end.

Definition key_eqb (a b : GroupKey) : bool :=
  num_eqb (k_Year a) (k_Year b) && num_eqb (k_Week a) (k_Week b)
  && cell_eqb (k_Payer a) (k_Payer b) && cell_eqb (k_Group_EM a) (k_Group_EM b)
  && cell_eqb (k_Group_EM2 a) (k_Group_EM2 b)
  && cell_eqb (k_Benchmark_Key a) (k_Benchmark_Key b).

(** Lexicographic order of the six key columns. *)
Definition key_leb (a b : GroupKey) : bool :=
  if negb (num_eqb (k_Year a) (k_Year b)) then num_leb (k_Year a) (k_Year b)
  else if negb (num_eqb (k_Week a) (k_Week b)) then num_leb (k_Week a) (k_Week b)
  else if negb (cell_eqb (k_Payer a) (k_Payer b)) then cell_leb (k_Payer a) (k_Payer b)
  else if negb (cell_eqb (k_Group_EM a) (k_Group_EM b))
       then cell_leb (k_Group_EM a) (k_Group_EM b)
  else if negb (cell_eqb (k_Group_EM2 a) (k_Group_EM2 b))
       then cell_leb (k_Group_EM2 a) (k_Group_EM2 b)
  else cell_leb (k_Benchmark_Key a) (k_Benchmark_Key b).

(** A row of [weekly]. [P] is the type of the cells of [rate_cols]:
    [float] until Step 8, [string] after it. *)
Record Weekly (P : Type) : Type := mkWeekly {
  key : GroupKey;
  Visit_Count : nat;
  Group_Size : nat;
  Charge_Amount : float;
  Payment_Amount : float;
  Zero_Balance_Collection_Rate : P;
  Collection_Rate : P;
  Denial_Percent : P;
  NRV_Gap_Percent : P;
  Remaining_Charges_Percent : P;
  Benchmark_Zero_Balance_Collection_Rate : P;
  Benchmark_Collection_Rate : P;
  Benchmark_Invoice_Count : float;
  Expected_Amount_85_EM_invoice_level : float;
  Expected_Payment : float;
  Revenue_Variance : float;
  Revenue_Variance_Pct : P;
  Volume_Gap : float;
  Actual_Rate_per_Visit : float;
  Rate_Variance : float
}.

(** Step 3: [bm_df = df[benchmark_cols].drop_duplicates(subset=['Benchmark_Key'])],
    the first row of every benchmark key, merged on the key. *)
Definition bm_df (df : list Invoice.Row) (k : cell) : option Invoice.Row :=
  find (fun r => cell_eqb (Invoice.Benchmark_Key r) k) df.

Definition bm_col (col : Invoice.Row -> float) (b : option Invoice.Row) : float :=
  match b with Some r => col r | None => NaN end.

(** Step 5 *)
Definition expected_payment (expected_rate : float) (visits : nat) : float :=
  (expected_rate * Float.of_nat visits)%fl.

Definition revenue_variance (payment expected : float) : float :=
  (payment - expected)%fl.

Definition revenue_variance_pct (payment expected : float) : float :=
  Float.np_where (expected ==? Fin 0)%fl NaN
                 (revenue_variance payment expected / expected)%fl.

(** Steps 2, 3, 5 and 6 for one group. *)
Definition weekly_row (df : list Invoice.Row) (k : GroupKey) (rows : list Invoice.Row)
  : Weekly float :=
  let visits := nunique (map Invoice.Invoice_Number rows) in
  let size := count (map Invoice.Invoice_Number rows) in
  let payment := Float.sum (map Invoice.Payment_Amount rows) in
  let b := bm_df df (k_Benchmark_Key k) in
  let expected_rate := bm_col Invoice.Expected_Amount_85_EM_invoice_level b in
  let expected := expected_payment expected_rate visits in
  let actual_rate := (payment / Float.of_nat visits)%fl in
  mkWeekly k visits size
           (Float.sum (map Invoice.Charge_Amount rows))
           payment
           (Float.mean (map Invoice.Zero_Balance_Collection_Rate rows))
           (Float.mean (map Invoice.Collection_Rate rows))
           (Float.mean (map Invoice.Denial_Percent rows))
           (Float.mean (map Invoice.NRV_Gap_Percent rows))
           (Float.mean (map Invoice.Remaining_Charges_Percent rows))
           (bm_col Invoice.Benchmark_Zero_Balance_Collection_Rate b)
           (bm_col Invoice.Benchmark_Collection_Rate b)
           (bm_col Invoice.Benchmark_Invoice_Count b)
           expected_rate
           expected
           (revenue_variance payment expected)
           (revenue_variance_pct payment expected)
           (Float.of_nat size - bm_col Invoice.Benchmark_Invoice_Count b)%fl
           actual_rate
           (actual_rate - expected_rate)%fl.

Definition weekly (df : list Invoice.Row) : list (Weekly float) :=
  map (fun g => weekly_row df (fst g) (snd g))
      (groupby key_eqb key_leb group_key df).

(** Step 8: [(col.astype(float).fillna(0) * 100).round().astype('Int64').astype(str) + '%'] *)
Definition fillna (v x : float) : float :=
  if Float.isnan x then v else x.

(** [round()]: to the nearest integer, a tie to the even one. *)
Definition round_half_even (q : Q) : Z :=
  let f := Qfloor q in
  let d := (q - inject_Z f)%Q in
  if Qle_bool d (1 # 2)
  then (if Qle_bool (1 # 2) d then (if Z.even f then f else f + 1) else f)%Z
  else (f + 1)%Z.

Definition in_int64 (z : Z) : bool :=
  ((- 2 ^ 63 <=? z) && (z <? 2 ^ 63))%Z.

(** [astype('Int64')] raises on an infinity and outside the int64 range. *)
Definition format_percent (x : float) : option string :=
  match (fillna (Fin 0) x * Fin 100)%fl with
  | Fin q =>
      let z := round_half_even q in
      if in_int64 z then Some (Py.str_int z ++ "%") else None
  | _ => None
  end.

Definition bind (A B : Type) (m : option A) (f : A -> option B) : option B :=
  match m with Some x => f x | None => None end.

Notation "x <- m ;; k" := (bind m (fun x => k))
  (at level 61, m at next level, right associativity).

(** The loop over [rate_cols] for one row of the table. Every column of
    the list is a column of [weekly], so the test [col in weekly.columns]
    always holds; the script formats column by column, which raises
    exactly when some row raises here. *)
Definition format_row (w : Weekly float) : option (Weekly string) :=
  zb <- format_percent (Zero_Balance_Collection_Rate w) ;;
  cr <- format_percent (Collection_Rate w) ;;
  dn <- format_percent (Denial_Percent w) ;;
  ng <- format_percent (NRV_Gap_Percent w) ;;
  rc <- format_percent (Remaining_Charges_Percent w) ;;
  bz <- format_percent (Benchmark_Zero_Balance_Collection_Rate w) ;;
  bc <- format_percent (Benchmark_Collection_Rate w) ;;
  rv <- format_percent (Revenue_Variance_Pct w) ;;
  Some (mkWeekly (key w) (Visit_Count w) (Group_Size w) (Charge_Amount w)
                 (Payment_Amount w) zb cr dn ng rc bz bc
                 (Benchmark_Invoice_Count w)
                 (Expected_Amount_85_EM_invoice_level w) (Expected_Payment w)
                 (Revenue_Variance w) rv (Volume_Gap w)
                 (Actual_Rate_per_Visit w) (Rate_Variance w)).

Definition step8 (t : list (Weekly float)) : option (list (Weekly string)) :=
  Exn.traverse format_row t.


(** The cells of [rate_cols] of one row, in the order of the list. *)
Definition rate_cols (P : Type) (w : Weekly P) : list P :=
  [Zero_Balance_Collection_Rate w; Collection_Rate w; Denial_Percent w;
   NRV_Gap_Percent w; Remaining_Charges_Percent w;
   Benchmark_Zero_Balance_Collection_Rate w; Benchmark_Collection_Rate w;
   Revenue_Variance_Pct w].

End WeeklyV5.

(* ================================================================= *)
(** ** scripts/source_data_processor_v3.py (Step 3, the key columns)

    The clean-up of the Year and Week formats (lines 84-85) rewrites those
    two columns only and is left out. *)

Module SourceProcessorV3.
Import Pandas.

Record Row : Type := mkRow {
  Year : cell;
  Week : cell;
  Payer : cell;
  Group_EM : cell;
  Group_EM2 : cell;
  Invoice_Number : cell
}.

(** Replace the columns of a table, row by row. *)
Definition set_metadata (r : Row) (m : cell * cell * cell * cell * cell) : Row :=
  let '(y, w, p, g, g2) := m in mkRow y w p g g2 (Invoice_Number r).

Definition set_Invoice_Number (r : Row) (c : cell) : Row :=
  mkRow (Year r) (Week r) (Payer r) (Group_EM r) (Group_EM2 r) c.

Definition zip5 (a b c d e : list cell) : list (cell * cell * cell * cell * cell) :=
  combine (combine (combine (combine a b) c) d) e.

(** Lines 79-81: [df[meta] = df[meta].ffill().astype(str)] *)
Definition fill_metadata (df : list Row) : list Row :=
  let col (f : Row -> cell) := map (fun c => Str (astype_str c)) (ffill (map f df)) in
  map (fun rm => set_metadata (fst rm) (snd rm))
      (combine df (zip5 (col Year) (col Week) (col Payer) (col Group_EM) (col Group_EM2))).

(** Line 88: [df["Invoice_Number"] = df["Invoice_Number"].ffill()] *)
Definition fill_down_invoice (df : list Row) : list Row :=
  map (fun rc => set_Invoice_Number (fst rc) (snd rc))
      (combine df (ffill (map Invoice_Number df))).

Definition normalize (df : list Row) : list Row :=
  fill_down_invoice (fill_metadata df).

End SourceProcessorV3.

(* ================================================================= *)
(** ** scripts/invoice_benchmark_code_v6_updated.py (Steps 1 to 5) *)

Module BenchmarkV6.
Import Pandas.
Open Scope string_scope.

(** A detail row. As loaded, [N] is [option Z] (the result of
    [pd.to_numeric(..., errors='coerce')]) and [T] is [cell]; after the
    [dropna] of Step 1 the five columns hold values: [Z] and [string]. *)
Record Row (N T : Type) : Type := mkRow {
  Year : N;
  Week : N;
  Payer : T;
  Group_EM : T;
  Group_EM2 : T;
  Invoice_Number : cell;
  Charge_CPT_Code : cell;                   (* "Charge CPT Code" *)
  Charge_Amount : float;                    (* "Charge Amount" *)
  Payment_Amount : float;                   (* "Payment Amount*" *)
  Zero_Balance_Collection_Rate : float      (* "Zero Balance Collection Rate" *)
}.

Definition Raw : Type := Row (option Z) cell.
Definition Clean : Type := Row Z string.

(** Step 1: [dropna(subset=['Year','Week','Payer','Group_EM','Group_EM2'])] *)
Definition dropna_row (r : Raw) : option Clean :=
  match Year r, Week r, Payer r, Group_EM r, Group_EM2 r with
  | Some y, Some w, Str p, Str g, Str g2 =>
      Some (mkRow y w p g g2 (Invoice_Number r) (Charge_CPT_Code r)
                  (Charge_Amount r) (Payment_Amount r)
                  (Zero_Balance_Collection_Rate r))
  | _, _, _, _, _ => None
  end.

Fixpoint step1 (df : list Raw) : list Clean :=
  match df with
  | [] => []
  | r :: df' =>
      match dropna_row r with
      | Some c => c :: step1 df'
      | None => step1 df'
      end
  end.

(** Step 1B: [df_inv['Invoice_Number'].fillna(method='ffill')] *)
Definition set_Invoice_Number (r : Clean) (c : cell) : Clean :=
  mkRow (Year r) (Week r) (Payer r) (Group_EM r) (Group_EM2 r) c
        (Charge_CPT_Code r) (Charge_Amount r) (Payment_Amount r)
        (Zero_Balance_Collection_Rate r).

Definition step1B (df : list Clean) : list Clean :=
  map (fun rc => set_Invoice_Number (fst rc) (snd rc))
      (combine df (ffill (map (@Invoice_Number Z string) df))).

(** Step 2: the CPT set of the invoice of a row. [groupby('Invoice_Number')]
    leaves out the rows without an invoice number, and [transform] gives
    them NaN. *)
Definition invoice_codes (df : list Clean) (inv : cell) : list string :=
  map (fun r => astype_str (Charge_CPT_Code r))
      (group_rows cell_eqb (@Invoice_Number Z string) df inv).

Definition Invoice_CPT_Set (df : list Clean) (r : Clean) : cell :=
  match Invoice_Number r with
  | Missing => Missing
  | Str _ => Str (Py.str_list (Py.sorted (Py.set_ (invoice_codes df (Invoice_Number r)))))
  end.

(** [+] on an object column: NaN on either side gives NaN. *)
Definition cell_concat (a b : cell) : cell :=
  match a, b with
  | Str s, Str t => Str (s ++ t)
  | _, _ => Missing
  end.

Definition Benchmark_Key (df : list Clean) (r : Clean) : cell :=
  fold_left cell_concat
            [Str "|"; Str (Py.str_int (Week r)); Str "|"; Str (Payer r); Str "|";
             Str (Group_EM r); Str "|"; Str (Group_EM2 r); Str "|";
             Invoice_CPT_Set df r]
            (Str (Py.str_int (Year r))).

(** [x.split('|')] *)
Fixpoint split (sep : ascii) (s : string) : list string :=
  match s with
  | EmptyString => [EmptyString]
  | String c s' =>
      if Ascii.eqb c sep then EmptyString :: split sep s'
      else match split sep s' with
           | h :: t => String c h :: t
           | [] => [String c EmptyString]
           end
  end.

(** ['|'.join(x.split('|')[2:])]; applied to a NaN key it raises. *)
Definition Abbreviate_Benchmark_Key (k : cell) : option string :=
  match k with
  | Str s => Some (Py.join "|" (skipn 2 (split "|" s)))
  | Missing => None
  end.

Record KeyedRow : Type := mkKeyedRow {
  base : Clean;
  row_Invoice_CPT_Set : cell;
  row_Benchmark_Key : cell;
  row_Abbreviate_Benchmark_Key : string
}.

Definition add_keys (df : list Clean) (r : Clean) : option KeyedRow :=
  let k := Benchmark_Key df r in
  match Abbreviate_Benchmark_Key k with
  | Some a => Some (mkKeyedRow r (Invoice_CPT_Set df r) k a)
  | None => None
  end.

Definition step2 (df : list Clean) : option (list KeyedRow) :=
  Exn.traverse (add_keys df) df.

(** Step 3: the means of every benchmark key ([dropna=False]), merged on
    the key. *)
Definition benchmark_mean (col : Clean -> float) (df : list KeyedRow) (k : cell) : float :=
  Float.mean (map (fun r => col (base r)) (group_rows cell_eqb row_Benchmark_Key df k)).

(** Step 5 *)
Definition Tag_Low_Payment (payment benchmark : float) : bool :=
  (payment <? Fin (9 # 10) * benchmark)%fl.

Definition Tag_Low_ZB_Collection (rate benchmark : float) : bool :=
  (rate <? Fin (9 # 10) * benchmark)%fl.

Definition Tag_High_Charge (charge benchmark : float) : bool :=
  (charge >? Fin (11 # 10) * benchmark)%fl.

Record TaggedRow : Type := mkTaggedRow {
  keyed : KeyedRow;
  Benchmark_Charge_Amount_within_invoice : float;
  Benchmark_Payment_Amount_within_invoice : float;
  Benchmark_Zero_Balance_Collection_Rate : float;
  row_Tag_Low_Payment : bool;
  row_Tag_Low_ZB_Collection : bool;
  row_Tag_High_Charge : bool
}.

Definition tag_row (df : list KeyedRow) (r : KeyedRow) : TaggedRow :=
  let k := row_Benchmark_Key r in
  let bc := benchmark_mean (@Charge_Amount Z string) df k in
  let bp := benchmark_mean (@Payment_Amount Z string) df k in
  let bz := benchmark_mean (@Zero_Balance_Collection_Rate Z string) df k in
  mkTaggedRow r bc bp bz
              (Tag_Low_Payment (Payment_Amount (base r)) bp)
              (Tag_Low_ZB_Collection (Zero_Balance_Collection_Rate (base r)) bz)
              (Tag_High_Charge (Charge_Amount (base r)) bc).

Definition step5 (df : list KeyedRow) : list TaggedRow :=
  map (tag_row df) df.

Definition invoice_level_index (raw : list Raw) : option (list TaggedRow) :=
  option_map step5 (step2 (step1B (step1 raw))).

End BenchmarkV6.

(* ================================================================= *)
(** ** scripts/generate_weekly_metrics.py (Steps 3A to 7)

    The table is taken after the numeric coercion of Step 2. The columns
    kept are the group columns, the visit, row and dollar columns and the
    percent variance; the historical invoice count of Step 3B and the
    other means feed none of them and are left out. *)

Module GenerateWeeklyMetrics.
Import Pandas.
Open Scope string_scope.

Record Row : Type := mkRow {
  Year : option Z;
  Week : option Z;
  Payer : cell;
  Group_EM : cell;
  Group_EM2 : cell;
  Benchmark_Key : cell;
  Invoice_Number : cell;
  Charge_Amount : float;            (* "Charge Amount" *)
  Payment_Amount : float;           (* "Payment Amount*" *)
  Expected_Amount_85_EM : float     (* "Expected Amount (85% E/M)" *)
}.

(** [group_cols_granular] and [group_cols_agg] *)
Definition granular_key (r : Row) : WeeklyV5.GroupKey :=
  WeeklyV5.mkGroupKey (Year r) (Week r) (Payer r) (Group_EM r) (Group_EM2 r)
                      (Benchmark_Key r).

Record MacroKey : Type := mkMacroKey {
  m_Year : option Z;
  m_Week : option Z;
  m_Payer : cell;
  m_Group_EM : cell;
  m_Group_EM2 : cell
}.

Definition macro_of (k : WeeklyV5.GroupKey) : MacroKey :=
  mkMacroKey (WeeklyV5.k_Year k) (WeeklyV5.k_Week k) (WeeklyV5.k_Payer k)
             (WeeklyV5.k_Group_EM k) (WeeklyV5.k_Group_EM2 k).

Definition macro_key (r : Row) : MacroKey := macro_of (granular_key r).

Definition macro_eqb (a b : MacroKey) : bool :=
  WeeklyV5.num_eqb (m_Year a) (m_Year b) && WeeklyV5.num_eqb (m_Week a) (m_Week b)
  && cell_eqb (m_Payer a) (m_Payer b) && cell_eqb (m_Group_EM a) (m_Group_EM b)
  && cell_eqb (m_Group_EM2 a) (m_Group_EM2 b).

Definition macro_leb (a b : MacroKey) : bool :=
  if negb (WeeklyV5.num_eqb (m_Year a) (m_Year b))
  then WeeklyV5.num_leb (m_Year a) (m_Year b)
  else if negb (WeeklyV5.num_eqb (m_Week a) (m_Week b))
  then WeeklyV5.num_leb (m_Week a) (m_Week b)
  else if negb (cell_eqb (m_Payer a) (m_Payer b)) then cell_leb (m_Payer a) (m_Payer b)
  else if negb (cell_eqb (m_Group_EM a) (m_Group_EM b))
  then cell_leb (m_Group_EM a) (m_Group_EM b)
  else cell_leb (m_Group_EM2 a) (m_Group_EM2 b).

(** Step 3A: the expected rate of a benchmark key, the mean of the
    expected amounts of its rows, merged on the key. *)
Definition exp_rate_by_key (base_df : list Row) (k : cell) : float :=
  Float.mean (map Expected_Amount_85_EM (group_rows cell_eqb Benchmark_Key base_df k)).

(** Steps 4 and 5: a row of the granular table. *)
Record Granular : Type := mkGranular {
  key : WeeklyV5.GroupKey;
  Visit_Count : nat;
  Group_Size : nat;
  g_Charge_Amount : float;
  g_Payment_Amount : float;
  Expected_Amount_85_EM_invoice_level : float;
  Expected_Payment : float;
  Revenue_Variance : float;
  Revenue_Variance_Pct : float;
  Actual_Rate_per_Visit : float;
  Rate_Variance : float
}.

(** [np.where(visits == 0, np.nan, amount / visits)] *)
Definition per_visit (amount : float) (visits : nat) : float :=
  Float.np_where (Nat.eqb visits 0) NaN (amount / Float.of_nat visits)%fl.

Definition granular_row (base_df : list Row) (k : WeeklyV5.GroupKey) (rows : list Row)
  : Granular :=
  let visits := nunique (map Invoice_Number rows) in
  let payment := Float.sum (map Payment_Amount rows) in
  let expected_rate := exp_rate_by_key base_df (WeeklyV5.k_Benchmark_Key k) in
  let expected := (expected_rate * Float.of_nat visits)%fl in
  let actual_rate := per_visit payment visits in
  mkGranular k visits (count (map Invoice_Number rows))
             (Float.sum (map Charge_Amount rows)) payment
             expected_rate expected
             (payment - expected)%fl
             (Float.np_where (expected ==? Fin 0)%fl NaN ((payment - expected) / expected)%fl)
             actual_rate
             (actual_rate - expected_rate)%fl.

Definition weekly (base_df : list Row) : list Granular :=
  map (fun g => granular_row base_df (fst g) (snd g))
      (groupby WeeklyV5.key_eqb WeeklyV5.key_leb granular_key base_df).

(** Step 6: the aggregated table. 6A sums the granular rows of a macro
    key, 6B counts the distinct invoices of the macro key in the base
    table, 6E derives the rates and variances. *)
Record Agg : Type := mkAgg {
  a_key : MacroKey;
  a_Visit_Count : nat;
  a_Group_Size : nat;
  a_Charge_Amount : float;
  a_Payment_Amount : float;
  a_Expected_Payment : float;
  Benchmark_Invoice_Count : nat;
  a_Actual_Rate_per_Visit : float;
  a_Expected_Amount_85_EM_invoice_level : float;
  a_Revenue_Variance : float;
  a_Revenue_Variance_Pct : float;
  Volume_Gap : Z;
  a_Rate_Variance : float
}.

Definition agg_benchmark_counts (base_df : list Row) (m : MacroKey) : nat :=
  nunique (map Invoice_Number (group_rows macro_eqb macro_key base_df m)).

Definition agg_row (base_df : list Row) (m : MacroKey) (rows : list Granular) : Agg :=
  let visits := list_sum (map Visit_Count rows) in
  let size := list_sum (map Group_Size rows) in
  let payment := Float.sum (map g_Payment_Amount rows) in
  let expected := Float.sum (map Expected_Payment rows) in
  let invoices := agg_benchmark_counts base_df m in
  let actual_rate := per_visit payment visits in
  let expected_rate := per_visit expected visits in
  mkAgg m visits size (Float.sum (map g_Charge_Amount rows)) payment expected invoices
        actual_rate expected_rate
        (payment - expected)%fl
        (Float.np_where (expected ==? Fin 0)%fl NaN ((payment - expected) / expected)%fl)
        (Z.of_nat size - Z.of_nat invoices)%Z
        (actual_rate - expected_rate)%fl.

Definition agg (base_df : list Row) : list Agg :=
  map (fun g => agg_row base_df (fst g) (snd g))
      (groupby macro_eqb macro_leb (fun w => macro_of (key w)) (weekly base_df)).

(** Step 7, one cell of a column of [pct_cols]:
    [(col.astype(float) * 100).round().astype('Int64').astype(str) + '%'].
    No [fillna] here: a missing cell becomes [<NA>]. *)
Definition format_pct (x : float) : option string :=
  match (x * Fin 100)%fl with
  | Fin q =>
      let z := WeeklyV5.round_half_even q in
      if WeeklyV5.in_int64 z then Some (Py.str_int z ++ "%") else None
  | NaN => Some "<NA>%"
  | Inf _ => None
  end.

End GenerateWeeklyMetrics.

(* ================================================================= *)
(** ** The row-level formulas on IEEE 754 binary64

    The guarded quotient, the low-payment tag and the performance label
    once more, on the doubles the scripts run on: the sample values of the
    specification can be evaluated without the rational abstraction. *)

Module Binary64.
Import PrimFloat.
#[local] Set Warnings "-inexact-float".
Local Open Scope string_scope.
Local Open Scope float_scope.

(** [np.where(denominator == 0, np.nan, numerator / denominator)] *)
Definition guarded_quotient (numerator denominator : float) : float :=
  if denominator =? 0 then nan else numerator / denominator.

Definition Tag_Low_Payment (payment benchmark : float) : bool :=
  payment <? 0.9 * benchmark.

Definition classify_performance (actual expected : float) : string :=
  if is_nan actual || is_nan expected || (expected =? 0)
  then "No Data"
  else
    let diff_pct := (actual - expected) / expected in
    if 0.05 <? diff_pct then "Over Performing"
    else if diff_pct <? - 0.05 then "Under Performing"
    else "Average Performance".

End Binary64.

(* ================================================================= *)
(** ** Sample tables *)

Module Samples.
Open Scope string_scope.

(** invoice_benchmark_code_v10: one invoice with two procedure lines, in
    both orders; the same invoice under two payers; a sheet whose first
    row has no payer. *)
Definition two_row_invoice : list (BenchmarkV10.Row string) :=
  [BenchmarkV10.mkRow "1001" "Aetna" "New E/M Code" "Layer2" "99213" (Fin 80);
   BenchmarkV10.mkRow "1001" "Aetna" "New E/M Code" "Layer2" "71045" (Fin 120)].

Definition two_row_invoice_swapped : list (BenchmarkV10.Row string) :=
  [BenchmarkV10.mkRow "1001" "Aetna" "New E/M Code" "Layer2" "71045" (Fin 120);
   BenchmarkV10.mkRow "1001" "Aetna" "New E/M Code" "Layer2" "99213" (Fin 80)].


Definition missing_payer_table : list (BenchmarkV10.Row cell) :=
  [BenchmarkV10.mkRow (Str "1001") Missing (Str "New E/M Code") (Str "Layer2")
                      (Str "99213") (Fin 80);
   BenchmarkV10.mkRow (Str "1002") (Str "Aetna") (Str "New E/M Code") (Str "Layer2")
                      (Str "99213") (Fin 90)].

(** CPT tracing: two invoices of one key with one visit each, with 1 and
    9 visits, and with no visit at all. *)
Definition equal_visits : list CptTracing.Row :=
  [CptTracing.mkRow (Str "Aetna") (Str "K") (Fin 1) (Fin 100) NaN (Fin 100) (Fin 120);
   CptTracing.mkRow (Str "Aetna") (Str "K") (Fin 1) (Fin 200) NaN (Fin 200) (Fin 120)].

Definition unequal_visits : list CptTracing.Row :=
  [CptTracing.mkRow (Str "Aetna") (Str "K") (Fin 1) (Fin 100) NaN (Fin 100) (Fin 120);
   CptTracing.mkRow (Str "Aetna") (Str "K") (Fin 9) (Fin 1800) NaN (Fin 200) (Fin 120)].

Definition zero_visits : list CptTracing.Row :=
  [CptTracing.mkRow (Str "Aetna") (Str "K") (Fin 0) (Fin 50) NaN (Fin 100) (Fin 120);
   CptTracing.mkRow (Str "Cigna") (Str "K") (Fin 0) (Fin 0) NaN NaN (Fin 120)].

(** Weekly model: a detail line of week 1 of 2024, payer Aetna, key K,
    all its rate columns equal to [rate]. *)
Definition line (invoice : cell) (payment rate expected_rate : float)
  : WeeklyV5.Invoice.Row :=
  WeeklyV5.Invoice.mkRow
    (Some 2024%Z) (Some 1%Z) (Str "Aetna") (Str "New E/M Code")
    (Str "Layer2") (Str "K") invoice (Fin 200) payment
    rate rate rate rate rate rate rate (Fin 2) expected_rate.

(** Invoice 1001 with two procedure lines, invoice 1002 with one. *)
Definition three_lines : list WeeklyV5.Invoice.Row :=
  [line (Str "1001") (Fin 60) (Fin 1) (Fin 100);
   line (Str "1001") (Fin 40) (Fin 1) (Fin 100);
   line (Str "1002") (Fin 90) (Fin 1) (Fin 100)].



Definition zero_expected : list WeeklyV5.Invoice.Row :=
  [line (Str "1001") (Fin 60) (Fin 1) (Fin 0)].

(** invoice_benchmark_code_v6: two keys whose mean payment is 100
    (payments 80 and 120 under one payer, 95 and 105 under the other). *)
Definition detail (payer invoice : string) (payment : Q) : BenchmarkV6.Raw :=
  BenchmarkV6.mkRow (Some 2024%Z) (Some 1%Z) (Str payer) (Str "New E/M Code")
                    (Str "Layer2") (Str invoice) (Str "99213")
                    (Fin 200) (Fin payment) (Fin 1).

Definition payments_around_100 : list BenchmarkV6.Raw :=
  [detail "Aetna" "1001" 80; detail "Aetna" "1002" 120;
   detail "Cigna" "1003" 95; detail "Cigna" "1004" 105].



End Samples.

(* ================================================================= *)
(** ** More sample tables *)

Module MoreSamples.
Open Scope string_scope.

(** generate_weekly_metrics: a detail line of week 1 of 2024, payer
    Aetna. *)
Definition metrics_line (benchmark_key invoice : string) (payment : Q)
  : GenerateWeeklyMetrics.Row :=
  GenerateWeeklyMetrics.mkRow
    (Some 2024%Z) (Some 1%Z) (Str "Aetna") (Str "New E/M Code") (Str "Layer2")
    (Str benchmark_key) (Str invoice) (Fin 200) (Fin payment) (Fin 100).

(** Invoice 1001 filed under two benchmark keys of one macro group. *)
Definition double_keyed_invoice : list GenerateWeeklyMetrics.Row :=
  [metrics_line "K1" "1001" 60; metrics_line "K2" "1001" 40].

(** Invoice 1001 with two lines under K1, invoice 1002 under K2. *)
Definition single_keyed_invoices : list GenerateWeeklyMetrics.Row :=
  [metrics_line "K1" "1001" 60; metrics_line "K1" "1001" 40;
   metrics_line "K2" "1002" 90].

(** invoice_benchmark_code_v10: a bar inside the payer and inside the
    group. *)
Definition bar_in_payer : list (BenchmarkV10.Row string) :=
  [BenchmarkV10.mkRow "1001" "A|B" "C" "Layer2" "99213" (Fin 80);
   BenchmarkV10.mkRow "1002" "A" "B|C" "Layer2" "99213" (Fin 120)].

(** CPT tracing: a key with one expected rate missing, and a table with
    neither rate column filled. *)
Definition missing_expected_rate : list CptTracing.Row :=
  [CptTracing.mkRow (Str "Aetna") (Str "K") (Fin 1) (Fin 100) NaN (Fin 100) (Fin 100);
   CptTracing.mkRow (Str "Aetna") (Str "K") (Fin 1) (Fin 200) NaN (Fin 200) NaN].

Definition no_rate_columns : list CptTracing.Row :=
  [CptTracing.mkRow (Str "Aetna") (Str "K") (Fin 2) (Fin 300) (Fin 250) NaN NaN;
   CptTracing.mkRow (Str "Aetna") (Str "K") (Fin 1) (Fin 90) (Fin 125) NaN NaN].

(** Source processor: a sheet whose first row has no payer. *)
Definition leading_blank_payer : list SourceProcessorV3.Row :=
  [SourceProcessorV3.mkRow (Str "2024") (Str "1") Missing (Str "New E/M Code")
                           (Str "Layer2") (Str "1001");
   SourceProcessorV3.mkRow Missing Missing (Str "Aetna") Missing Missing (Str "1002");
   SourceProcessorV3.mkRow Missing Missing Missing Missing Missing Missing].

End MoreSamples.

(* ================================================================= *)
(** ** Views of the tables that the properties are stated with *)

(** Columns of numbers. *)
Module ColumnViews.
Import Float.

(** The finite entries of a column, and a cell that is not infinite. *)
Definition finite_values (l : list float) : list Q :=
  flat_map (fun x => match x with Fin q => [q] | _ => [] end) l.

Definition not_inf (x : float) : Prop :=
  match x with Inf _ => False | _ => True end.

End ColumnViews.

(** Characters of the text of an integer, and of a key field. *)
Module TextViews.
Import Py.
Open Scope string_scope.

Definition is_digit (c : ascii) : bool := ((48 <=? ord c) && (ord c <=? 57))%N.
Definition digit_or_minus (c : ascii) : bool := is_digit c || Ascii.eqb c "-".

(** The string holds no ["|"]. *)
Definition no_bar (s : string) : Prop := str_contains "|" s = false.

End TextViews.

(** weekly_model_generator_v5.py: the groups of the weekly table. *)
Module WeeklyV5Views.
Import Pandas WeeklyV5.

Definition groups (df : list Invoice.Row) : list (GroupKey * list Invoice.Row) :=
  groupby key_eqb key_leb group_key df.

End WeeklyV5Views.

(** generate_weekly_metrics.py: the groups of the granular table, and
    those of one macro key. *)
Module GenerateWeeklyMetricsViews.
Import Pandas GenerateWeeklyMetrics.

Definition granular_groups (df : list Row) : list (WeeklyV5.GroupKey * list Row) :=
  groupby WeeklyV5.key_eqb WeeklyV5.key_leb granular_key df.

Definition macro_groups (df : list Row) (m : MacroKey)
  : list (WeeklyV5.GroupKey * list Row) :=
  filter (fun g => macro_eqb (macro_of (fst g)) m) (granular_groups df).

End GenerateWeeklyMetricsViews.

(** invoice_benchmark_code_v10_updated.py: the rows of a benchmark key
    and their payments. *)
Module BenchmarkV10Views.
Import Float Pandas BenchmarkV10.

Definition key_rows (df : list KeyedRow) (k : string) : list KeyedRow :=
  group_rows String.eqb Benchmark_Key df k.

Definition payments (rows : list KeyedRow) : list float :=
  map (fun r => Payment_Amount (base r)) rows.

End BenchmarkV10Views.

(** CPT tracing code.py: the rate an absent column is rebuilt to
    (line 62). *)
Module CptTracingViews.
Import Float CptTracing.

Definition payment_per_visit (r : Row) : float :=
  np_where (Visit_Count r ==? Fin 0)%fl NaN (Payment_Amount r / Visit_Count r)%fl.

End CptTracingViews.

(** source_data_processor_v3.py: the five metadata cells of a row, and
    [ffill().astype(str)] of one column. *)
Module SourceProcessorV3Views.
Import Pandas SourceProcessorV3.

Definition metadata (r : Row) : cell * cell * cell * cell * cell :=
  (Year r, Week r, Payer r, Group_EM r, Group_EM2 r).

Definition filled_text (col : list cell) : list cell :=
  map (fun c => Str (astype_str c)) (ffill col).

End SourceProcessorV3Views.

(* ================================================================= *)
(** * Properties *)

(** ** The order of [str] and [sorted(set(x))] *)

Module PyFacts.
Import Py.








Section SortFacts.
Variable A : Type.
Variable leb : A -> A -> bool.

Lemma insert_perm (x : A) (l : list A) : Permutation (x :: l) (insert leb x l).
Proof.
  induction l as [|y l IH]; simpl; [reflexivity|].
  destruct (leb x y); [reflexivity|].
  rewrite perm_swap. now constructor.
Qed.

Lemma sort_perm (l : list A) : Permutation l (sort leb l).
Proof.
  induction l as [|x l IH]; simpl; [constructor|].
  rewrite <- insert_perm. now constructor.
Qed.

Lemma sort_In (x : A) (l : list A) : In x (sort leb l) <-> In x l.
Proof.
  split; apply Permutation_in; [symmetry|]; apply sort_perm.
Qed.
End SortFacts.








End PyFacts.

(** ** Grouping, [unique], [ffill] and steps that may raise *)

Module PandasFacts.
Import Pandas.

Lemma cell_eqb_eq (a b : cell) : cell_eqb a b = true <-> a = b.
Proof.
  destruct a as [|s], b as [|t]; simpl; split; try congruence.
  - intros H. apply String.eqb_eq in H. now subst.
  - intros [= ->]. apply String.eqb_refl.
Qed.

Section GroupFacts.
Variables R K : Type.
Variable eqb : K -> K -> bool.
Variable leb : K -> K -> bool.
Variable key : R -> K.
Hypothesis eqb_eq : forall a b, eqb a b = true <-> a = b.

Lemma unique_In (x : K) (l : list K) : In x (unique eqb l) <-> In x l.
Proof using eqb_eq.
  induction l as [|y l IH]; simpl; [reflexivity|].
  rewrite filter_In, IH. split.
  - intros [H|[H _]]; auto.
  - intros [H|H]; auto.
    destruct (eqb y x) eqn:E.
    + left. now apply eqb_eq.
    + right. auto.
Qed.

Lemma unique_NoDup (l : list K) : NoDup (unique eqb l).
Proof.
  induction l as [|y l IH]; simpl; constructor.
  - rewrite filter_In. intros [_ H].
    rewrite (proj2 (eqb_eq y y) eq_refl) in H. discriminate.
  - now apply NoDup_filter.
Qed.

Lemma groupby_In (df : list R) (g : K * list R) :
  In g (groupby eqb leb key df) <->
  (exists r, In r df /\ fst g = key r) /\ snd g = group_rows eqb key df (fst g).
Proof.
  unfold groupby. rewrite in_map_iff. split.
  - intros (k & <- & Hk). simpl. split; [|reflexivity].
    apply PyFacts.sort_In, (unique_In) , in_map_iff in Hk.
    destruct Hk as (r & <- & Hr). eauto.
  - intros ((r & Hr & Hk) & Hg). exists (fst g). split.
    + destruct g; simpl in *. now subst.
    + apply PyFacts.sort_In, unique_In. rewrite Hk. now apply in_map.
Qed.

Lemma group_rows_In (df : list R) (k : K) (r : R) :
  In r (group_rows eqb key df k) <-> In r df /\ key r = k.
Proof. unfold group_rows. now rewrite filter_In, eqb_eq. Qed.

Lemma groupby_keys_NoDup (df : list R) : NoDup (map fst (groupby eqb leb key df)).
Proof.
  unfold groupby. rewrite map_map. simpl. rewrite map_id.
  eapply Permutation_NoDup; [apply PyFacts.sort_perm | apply unique_NoDup].
Qed.
End GroupFacts.

Lemma find_first (A : Type) (p : A -> bool) (l : list A) :
  (exists x, In x l /\ p x = true) ->
  exists y, find p l = Some y /\ In y l /\ p y = true.
Proof.
  intros (x & Hx & Hp). destruct (find p l) as [y|] eqn:E.
  - exists y. apply find_some in E. tauto.
  - exfalso. pose proof (find_none _ _ E _ Hx). congruence.
Qed.

Lemma traverse_map (A B : Type) (f : A -> option B) (g : A -> B) (l : list A) :
  (forall x, In x l -> f x = Some (g x)) -> Exn.traverse f l = Some (map g l).
Proof.
  induction l as [|x l IH]; simpl; intros H; [reflexivity|].
  rewrite (H x (or_introl eq_refl)), IH; [reflexivity|]. intros; apply H; auto.
Qed.

Lemma traverse_Some (A B : Type) (f : A -> option B) (l : list A) (out : list B) :
  Exn.traverse f l = Some out -> Forall2 (fun x y => f x = Some y) l out.
Proof.
  revert out. induction l as [|x l IH]; simpl; intros out H.
  - injection H as <-. constructor.
  - destruct (f x) eqn:E; [|discriminate].
    destruct (Exn.traverse f l); [|discriminate].
    injection H as <-. constructor; auto.
Qed.

Lemma ffill_from_length (last : cell) (l : list cell) :
  List.length (ffill_from last l) = List.length l.
Proof.
  revert last. induction l as [|[|s] l IH]; intros last; simpl; auto.
Qed.

Lemma ffill_from_nth (last : cell) (l : list cell) (i : nat) :
  (i < List.length l)%nat ->
  nth i (ffill_from last l) Missing = last_value last (firstn (S i) l).
Proof.
  revert last i. induction l as [|c l IH]; intros last i Hi; simpl in Hi; [lia|].
  destruct i as [|i].
  - destruct c; reflexivity.
  - destruct c as [|s]; cbn [ffill_from nth firstn last_value];
      apply IH; lia.
Qed.

End PandasFacts.

(* ================================================================= *)
(** ** invoice_benchmark_code_v10_updated.py: keys and validation *)

Module BenchmarkV10Facts.
Import Py PyFacts Pandas PandasFacts BenchmarkV10 Samples.
Open Scope string_scope.


Lemma merge_cpt_list_In (df : list (Row string)) (r : Row string) :
  In r df ->
  exists e, merge_cpt_list (cpt_list_df df) r = Some e /\
            CPT_List_Str e = str_list (sorted (set_ (codes_of df (Invoice_Number r)))).
Proof.
  intros Hr. unfold merge_cpt_list.
  set (p := fun e => String.eqb (cl_Invoice_Number e) (Invoice_Number r)).
  assert (Hcase : forall e, In e (cpt_list_df df) -> p e = true ->
            CPT_List_Str e = str_list (sorted (set_ (codes_of df (Invoice_Number r))))).
  { intros e He Hp. unfold cpt_list_df in He. apply in_map_iff in He.
    destruct He as (g & <- & Hg).
    apply (groupby_In String.eqb _ _ String.eqb_eq) in Hg. destruct Hg as (_ & Hrows).
    unfold p in Hp. simpl in Hp. apply String.eqb_eq in Hp.
    simpl. unfold codes_of. now rewrite Hrows, Hp. }
  destruct (@find_first _ p (cpt_list_df df)) as (e & Hf & He & Hp).
  - exists (let l := sorted (set_ (codes_of df (Invoice_Number r))) in
            mkCptList (Invoice_Number r) l (str_list l)).
    split; [|unfold p; simpl; apply String.eqb_refl].
    unfold cpt_list_df. apply in_map_iff.
    exists (Invoice_Number r, group_rows String.eqb (@Invoice_Number string) df (Invoice_Number r)).
    split; [reflexivity|].
    apply (groupby_In String.eqb _ _ String.eqb_eq). simpl. split; [|reflexivity]. eauto.
  - exists e. split; [assumption|]. now apply Hcase.
Qed.

Lemma add_keys_In (df : list (Row string)) (r : Row string) :
  In r df -> add_keys (cpt_list_df df) r = Some (keyed_row df r).
Proof.
  intros Hr. unfold add_keys.
  destruct (merge_cpt_list_In df r Hr) as (e & -> & ->). reflexivity.
Qed.

(** Step 3 never raises. *)
Lemma step3_total (df : list (Row string)) :
  step3 df = Some (map (keyed_row df) df).
Proof. apply traverse_map. intros r Hr. now apply add_keys_In. Qed.





(** The synthetic invoice of the specification: both rows get
    ["Aetna|New E/M Code|Layer2|['71045', '99213']"], in either order. *)
Example benchmark_key_example :
  option_map (map Benchmark_Key) (step3 two_row_invoice) =
    Some ["Aetna|New E/M Code|Layer2|['71045', '99213']";
          "Aetna|New E/M Code|Layer2|['71045', '99213']"] /\
  option_map (map Benchmark_Key) (step3 two_row_invoice_swapped) =
    Some ["Aetna|New E/M Code|Layer2|['71045', '99213']";
          "Aetna|New E/M Code|Layer2|['71045', '99213']"].
Proof. split; reflexivity. Qed.


Lemma invalid_mask_false (r : Row string) : invalid_mask r = false.
Proof. reflexivity. Qed.

(** C8 fails on the code: Step 1 casts the key cells with [astype(str)]
    before Step 2 tests them with [isna], so a missing cell has become the
    text "nan" and no row is ever written to the validation report. On a
    table whose first row has no payer, the report is empty and the row
    stays in the main output under the payer "nan". *)
Theorem missing_key_field_not_quarantined :
  (forall raw, validation_report_csv raw = [] /\ step2 (step1 raw) = step1 raw) /\
  validation_report_csv missing_payer_table = [] /\
  option_map (map (fun v => (Invoice_Number (base (keyed v)), Payer (base (keyed v)))))
             (invoice_level_index missing_payer_table)
  = Some [("1001", "nan"); ("1002", "Aetna")].
Proof.
  split.
  - intros raw. unfold validation_report_csv, validation_report, step2.
    generalize (step1 raw) as df. intros df. split.
    + induction df as [|r df IH]; cbn [filter]; [reflexivity|].
      now rewrite invalid_mask_false.
    + induction df as [|r df IH]; cbn [filter]; [reflexivity|].
      rewrite invalid_mask_false. cbn [negb]. now f_equal.
  - split; reflexivity.
Qed.

End BenchmarkV10Facts.

(* ================================================================= *)
(** ** float64 values: equality and sums *)

Module FloatFacts.
Import Float.

Lemma feq_refl (x : float) : feq x x.
Proof. destruct x; simpl; auto. reflexivity. Qed.

Lemma feq_sym (x y : float) : feq x y -> feq y x.
Proof. destruct x, y; simpl; auto. intros H. now symmetry. Qed.

Lemma feq_trans (x y z : float) : feq x y -> feq y z -> feq x z.
Proof.
  destruct x, y, z; simpl; try tauto; try congruence.
  intros H1 H2. now rewrite H1.
Qed.

Lemma dropna_Fin (l : list Q) : dropna (map Fin l) = map Fin l.
Proof. induction l as [|q l IH]; simpl; [reflexivity|]. now f_equal. Qed.

Lemma fold_fadd_Fin (l : list Q) (a : Q) :
  fold_left fadd (map Fin l) (Fin a) = Fin (fold_left Qplus l a).
Proof. revert a. induction l as [|q l IH]; intros a; simpl; auto. Qed.

Lemma fold_Qplus_Qsum (l : list Q) (a : Q) : fold_left Qplus l a == a + Qsum l.
Proof.
  revert a. induction l as [|q l IH]; intros a; simpl.
  - ring.
  - rewrite IH. ring.
Qed.

(** A column of finite values sums to the sum of the values. *)
Lemma sum_Fin (l : list Q) : exists s, sum (map Fin l) = Fin s /\ s == Qsum l.
Proof.
  exists (fold_left Qplus l 0). unfold sum, fsum.
  rewrite dropna_Fin, fold_fadd_Fin. split; [reflexivity|].
  rewrite fold_Qplus_Qsum. ring.
Qed.

Lemma Qeq_bool_false (a b : Q) : ~ a == b -> Qeq_bool a b = false.
Proof.
  intros H. destruct (Qeq_bool a b) eqn:E; [|reflexivity].
  apply Qeq_bool_eq in E. contradiction.
Qed.

Lemma fdiv_Fin (a b : Q) : ~ b == 0 -> fdiv (Fin a) (Fin b) = Fin (a / b).
Proof. intros H. simpl. now rewrite (Qeq_bool_false H). Qed.

Lemma feqb_zero (x : float) : feqb x (Fin 0) = true <-> feq x (Fin 0).
Proof.
  destruct x; simpl; split; try easy.
  - apply Qeq_bool_eq.
  - apply Qeq_eq_bool.
Qed.

End FloatFacts.

(* ================================================================= *)
(** ** CPT tracing code.py: the visit-weighted rates *)

Module CptTracingFacts.
Import Float FloatFacts Pandas PandasFacts CptTracing Samples.
Open Scope string_scope.

Section RollupFacts.
Variable K : Type.
Variable eqb : K -> K -> bool.
Variable leb : K -> K -> bool.
Variable key : Row -> K.
Hypothesis eqb_eq : forall a b, eqb a b = true <-> a = b.

(** Every row of a roll-up is the aggregation of the rows of its key. *)
Lemma rollup_In (df : list Row) (g : Rollup K) :
  In g (rollup eqb leb key df) ->
  g = rollup_group (group_key g) (group_rows eqb key (prepare df) (group_key g)).
Proof using eqb_eq.
  unfold rollup. rewrite in_map_iff. intros ((k, rows) & <- & Hg).
  apply (groupby_In eqb leb key eqb_eq) in Hg. simpl in *.
  destruct Hg as (_ & ->). reflexivity.
Qed.

Lemma rollup_zero_visits (df : list Row) (g : Rollup K) :
  In g (rollup eqb leb key df) ->
  (Total_Visits g ==? Fin 0)%fl = true ->
  Weighted_Actual_Rate_per_Visit g = NaN /\
  Weighted_Expected_Rate_per_Visit g = NaN.
Proof using eqb_eq.
  intros Hg. pose proof (rollup_In _ _ Hg) as E.
  remember (group_rows eqb key (prepare df) (group_key g)) as rows eqn:Hrows.
  remember (group_key g) as k eqn:Hk. clear Hrows Hk Hg. subst g. simpl.
  intros ->. split; reflexivity.
Qed.

Lemma rollup_nonzero_visits (df : list Row) (g : Rollup K) :
  In g (rollup eqb leb key df) ->
  (Total_Visits g ==? Fin 0)%fl = false ->
  let rows := group_rows eqb key (prepare df) (group_key g) in
  Weighted_Actual_Rate_per_Visit g = (w_actual rows / total_visits rows)%fl /\
  Weighted_Expected_Rate_per_Visit g = (w_expected rows / total_visits rows)%fl.
Proof using eqb_eq.
  intros Hg. pose proof (rollup_In _ _ Hg) as E. cbv zeta.
  remember (group_rows eqb key (prepare df) (group_key g)) as rows eqn:Hrows.
  remember (group_key g) as k eqn:Hk. clear Hrows Hk Hg. subst g. simpl.
  intros ->. split; reflexivity.
Qed.
End RollupFacts.

Lemma pair_eqb_eq (a b : cell * cell) : pair_eqb a b = true <-> a = b.
Proof.
  destruct a as [a1 a2], b as [b1 b2]. unfold pair_eqb. simpl.
  rewrite andb_true_iff, !cell_eqb_eq. split.
  - now intros [-> ->].
  - now intros [= -> ->].
Qed.

(** The rates and visit counts of a group of finite values give the
    weighted average of the formula. *)
Lemma weighted_average_Fin (rows : list Row) (obs : list (Q * Q)) :
  map (fun r => (Actual_Rate_per_Visit r, Visit_Count r)) rows
    = map (fun p => (Fin (fst p), Fin (snd p))) obs ->
  0 < Qsum (map snd obs) ->
  exists t, total_visits rows = Fin t /\ 0 < t /\
    feq (w_actual rows / total_visits rows)%fl
        (Fin (Qsum (map (fun p => fst p * snd p) obs) / Qsum (map snd obs))).
Proof.
  intros Hobs Hpos.
  assert (Hv : map Visit_Count rows = map Fin (map snd obs)).
  { rewrite map_map.
    change (map Visit_Count rows)
      with (map (fun r => snd ((fun r => (Actual_Rate_per_Visit r, Visit_Count r)) r)) rows).
    rewrite <- (map_map (fun r => (Actual_Rate_per_Visit r, Visit_Count r)) snd).
    rewrite Hobs, map_map. reflexivity. }
  assert (Hw : map (fun r => (Actual_Rate_per_Visit r * Visit_Count r)%fl) rows
               = map Fin (map (fun p => fst p * snd p) obs)).
  { rewrite map_map.
    change (map (fun r => (Actual_Rate_per_Visit r * Visit_Count r)%fl) rows)
      with (map (fun r => (fun x => (fst x * snd x)%fl)
                            ((fun r => (Actual_Rate_per_Visit r, Visit_Count r)) r)) rows).
    rewrite <- (map_map (fun r => (Actual_Rate_per_Visit r, Visit_Count r))
                        (fun x => (fst x * snd x)%fl)).
    rewrite Hobs, map_map. reflexivity. }
  unfold total_visits, w_actual, nansum. rewrite Hv, Hw.
  destruct (sum_Fin (map snd obs)) as (t & Ht & Et).
  destruct (sum_Fin (map (fun p => fst p * snd p) obs)) as (w & Hw' & Ew).
  fold (sum (map Fin (map (fun p => fst p * snd p) obs))).
  rewrite Ht, Hw'. exists t. split; [reflexivity|].
  assert (0 < t) by now rewrite Et.
  split; [assumption|].
  rewrite fdiv_Fin by (intros E; rewrite E in *; now apply (Qlt_irrefl 0)).
  simpl. now rewrite Et, Ew.
Qed.

Lemma by_key_In (df : list Row) (g : Rollup cell) :
  In g (by_key df) ->
  g = rollup_group (group_key g)
                   (group_rows cell_eqb Benchmark_Key (prepare df) (group_key g)).
Proof. apply (rollup_In cell_eqb cell_leb Benchmark_Key cell_eqb_eq). Qed.

(** C2: for every group of the roll-up by key whose total visits are
    positive, the weighted actual rate per visit is the sum of
    rate x visits over the rows of the group divided by the sum of their
    visits (the sums skipping missing entries, as [nansum] and [sum] do);
    on a group of finite values this is the rational
    sum(rate * visits) / sum(visits). Visits {1,1} with rates {100,200}
    give 150; visits {1,9} give 190, where the plain mean of the rates
    is 150. *)
Theorem weighted_actual_rate_per_visit :
  (forall (df : list Row) (g : Rollup cell) (t : Q),
     In g (by_key df) -> Total_Visits g = Fin t -> 0 < t ->
     let rows := group_rows cell_eqb Benchmark_Key (prepare df) (group_key g) in
     Weighted_Actual_Rate_per_Visit g =
       (nansum (map (fun r => Actual_Rate_per_Visit r * Visit_Count r) rows)
        / sum (map Visit_Count rows))%fl) /\
  (forall (df : list Row) (g : Rollup cell) (obs : list (Q * Q)),
     In g (by_key df) ->
     map (fun r => (Actual_Rate_per_Visit r, Visit_Count r))
         (group_rows cell_eqb Benchmark_Key (prepare df) (group_key g))
       = map (fun p => (Fin (fst p), Fin (snd p))) obs ->
     0 < Qsum (map snd obs) ->
     feq (Weighted_Actual_Rate_per_Visit g)
         (Fin (Qsum (map (fun p => fst p * snd p) obs) / Qsum (map snd obs)))) /\
  Forall2 feq (map (@Weighted_Actual_Rate_per_Visit cell) (by_key equal_visits))
              [Fin 150] /\
  Forall2 feq (map (@Weighted_Actual_Rate_per_Visit cell) (by_key unequal_visits))
              [Fin 190] /\
  feq (mean (map Actual_Rate_per_Visit unequal_visits)) (Fin 150).
Proof.
  split; [|split].
  - intros df g t Hg Ht Hpos.
    destruct (rollup_nonzero_visits cell_eqb cell_leb Benchmark_Key cell_eqb_eq _ _ Hg) as [H _]; [|exact H].
    rewrite Ht. simpl. apply Qeq_bool_false. intros E. rewrite E in Hpos.
    now apply (Qlt_irrefl 0).
  - intros df g obs Hg Hobs Hpos.
    destruct (weighted_average_Fin _ _ Hobs Hpos) as (t & Ht & Htpos & Hw).
    assert (Htot : Total_Visits g = Fin t).
    { rewrite (by_key_In _ _ Hg). simpl. exact Ht. }
    destruct (rollup_nonzero_visits cell_eqb cell_leb Benchmark_Key cell_eqb_eq _ _ Hg) as [H _].
    + rewrite Htot. simpl. apply Qeq_bool_false. intros E. rewrite E in Htpos.
      now apply (Qlt_irrefl 0).
    + cbv zeta in H. rewrite H. exact Hw.
  - repeat split; repeat constructor; reflexivity.
Qed.

Lemma weighted_actual_rate_per_visit_witness :
  feq (Weighted_Actual_Rate_per_Visit
         (rollup_group (Str "K") unequal_visits))
      (Fin (Qsum (map (fun p => fst p * snd p) [(100, 1); (200, 9)])
            / Qsum (map snd [(100, 1); (200, 9)]))).
Proof.
  apply (proj1 (proj2 weighted_actual_rate_per_visit) unequal_visits
               (rollup_group (Str "K") unequal_visits)
               [(100, 1); (200, 9)]).
  - left. reflexivity.
  - reflexivity.
  - reflexivity.
Defined.

(** C3: for every group of a roll-up (by key, or by payer and key) whose
    total visits are 0, the weighted actual and expected rates per visit
    are NaN, so neither is 0, and the roll-up is a total function: nothing
    is raised. The quotient is the result exactly when the total is not 0. *)
Theorem zero_visits_rate_missing (df : list Row) :
  (forall g, In g (by_key df) -> feq (Total_Visits g) (Fin 0) ->
     Weighted_Actual_Rate_per_Visit g = NaN /\
     Weighted_Expected_Rate_per_Visit g = NaN /\
     ~ feq (Weighted_Actual_Rate_per_Visit g) (Fin 0) /\
     ~ feq (Weighted_Expected_Rate_per_Visit g) (Fin 0)) /\
  (forall g, In g (by_payer_key df) -> feq (Total_Visits g) (Fin 0) ->
     Weighted_Actual_Rate_per_Visit g = NaN /\
     Weighted_Expected_Rate_per_Visit g = NaN /\
     ~ feq (Weighted_Actual_Rate_per_Visit g) (Fin 0) /\
     ~ feq (Weighted_Expected_Rate_per_Visit g) (Fin 0)) /\
  (forall g, In g (by_key df) ->
     let rows := group_rows cell_eqb Benchmark_Key (prepare df) (group_key g) in
     Weighted_Actual_Rate_per_Visit g =
       (if (Total_Visits g ==? Fin 0)%fl then NaN
        else (w_actual rows / total_visits rows)%fl) /\
     Weighted_Expected_Rate_per_Visit g =
       (if (Total_Visits g ==? Fin 0)%fl then NaN
        else (w_expected rows / total_visits rows)%fl)).
Proof.
  split; [|split].
  - intros g Hg Hz. apply feqb_zero in Hz.
    destruct (rollup_zero_visits cell_eqb cell_leb Benchmark_Key cell_eqb_eq _ _ Hg Hz) as [-> ->].
    repeat split; auto.
  - intros g Hg Hz. apply feqb_zero in Hz.
    destruct (rollup_zero_visits pair_eqb pair_leb (fun r => (Payer r, Benchmark_Key r)) pair_eqb_eq _ _ Hg Hz) as [-> ->].
    repeat split; auto.
  - intros g Hg. cbv zeta.
    destruct (Total_Visits g ==? Fin 0)%fl eqn:E.
    + exact (rollup_zero_visits cell_eqb cell_leb Benchmark_Key cell_eqb_eq _ _ Hg E).
    + exact (rollup_nonzero_visits cell_eqb cell_leb Benchmark_Key cell_eqb_eq _ _ Hg E).
Qed.

Lemma zero_visits_rate_missing_witness :
  In (rollup_group (Str "K") zero_visits) (by_key zero_visits) /\
  feq (Total_Visits (rollup_group (Str "K") zero_visits)) (Fin 0) /\
  Weighted_Actual_Rate_per_Visit (rollup_group (Str "K") zero_visits) = NaN /\
  Weighted_Expected_Rate_per_Visit (rollup_group (Str "K") zero_visits) = NaN.
Proof.
  assert (Hin : In (rollup_group (Str "K") zero_visits) (by_key zero_visits))
    by (left; reflexivity).
  assert (Hz : feq (Total_Visits (rollup_group (Str "K") zero_visits)) (Fin 0))
    by reflexivity.
  destruct (proj1 (zero_visits_rate_missing zero_visits) _ Hin Hz) as (Ha & He & _).
  repeat split; assumption.
Defined.

End CptTracingFacts.

(* ================================================================= *)
(** ** weekly_model_generator_v5.py: visit counts, variance, export *)

Module WeeklyV5Facts.
Import Float FloatFacts Pandas PandasFacts WeeklyV5 Samples.
Open Scope string_scope.

Lemma num_eqb_eq (a b : option Z) : num_eqb a b = true <-> a = b.
Proof.
  destruct a as [x|], b as [y|]; simpl; split; try congruence.
  - intros H. apply Z.eqb_eq in H. now subst.
  - intros [= ->]. apply Z.eqb_refl.
Qed.

Lemma key_eqb_eq (a b : GroupKey) : key_eqb a b = true <-> a = b.
Proof.
  destruct a, b. unfold key_eqb. simpl.
  rewrite !andb_true_iff, !num_eqb_eq, !cell_eqb_eq. split.
  - intros [[[[[-> ->] ->] ->] ->] ->]. reflexivity.
  - intros [= -> -> -> -> -> ->]. repeat split.
Qed.

(** Every row of [weekly] aggregates the rows of its key. *)
Lemma weekly_In (df : list Invoice.Row) (w : Weekly float) :
  In w (weekly df) ->
  w = weekly_row df (key w) (group_rows key_eqb group_key df (key w)).
Proof.
  unfold weekly. rewrite in_map_iff. intros ((k, rows) & <- & Hg).
  apply (groupby_In key_eqb key_leb group_key key_eqb_eq) in Hg. simpl in *.
  destruct Hg as (_ & ->). reflexivity.
Qed.

Lemma unique_length_le (l : list cell) :
  (List.length (unique cell_eqb l) <= List.length l)%nat.
Proof.
  induction l as [|c l IH]; simpl; [lia|].
  pose proof (filter_length_le (fun y => negb (cell_eqb c y)) (unique cell_eqb l)).
  lia.
Qed.

Lemma present_In (c : cell) (l : list cell) :
  In c (present l) <-> In c l /\ c <> Missing.
Proof.
  unfold present. rewrite filter_In. destruct c; simpl; split; intros [H1 H2];
    split; congruence.
Qed.




(** [round_half_even] is within one half of its argument. *)
Lemma round_half_even_near (q : Q) :
  q - (1 # 2) <= inject_Z (round_half_even q) <= q + (1 # 2).
Proof.
  unfold round_half_even.
  pose proof (Qfloor_le q) as Hlo. pose proof (Qlt_floor q) as Hhi.
  rewrite inject_Z_plus in Hhi. change (inject_Z 1) with 1 in Hhi.
  destruct (Qle_bool (q - inject_Z (Qfloor q)) (1 # 2)) eqn:E1.
  - apply Qle_bool_iff in E1.
    destruct (Qle_bool (1 # 2) (q - inject_Z (Qfloor q))) eqn:E2.
    + apply Qle_bool_iff in E2. destruct (Z.even (Qfloor q)).
      * lra.
      * rewrite inject_Z_plus. change (inject_Z 1) with 1. lra.
    + lra.
  - assert (H : ~ q - inject_Z (Qfloor q) <= 1 # 2).
    { intros H. apply Qle_bool_iff in H. congruence. }
    rewrite inject_Z_plus. change (inject_Z 1) with 1. lra.
Qed.




End WeeklyV5Facts.

(* ================================================================= *)
(** ** Dollar and percent variance (weekly model v5, invoice benchmark v10) *)

Module VarianceFacts.
Import Float FloatFacts Pandas PandasFacts Samples.
Open Scope string_scope.

Lemma fsub_zero (a e : float) : feq e (Fin 0) -> feq (a - e)%fl a.
Proof.
  destruct e as [q| |]; simpl; try easy. intros Hq.
  destruct a as [x|s|]; simpl; auto. rewrite Hq. ring.
Qed.

(** C4: in every row of the weekly model and of the invoice index, the
    dollar variance is actual - expected and the percent variance is the
    dollar variance divided by the expected amount, except that it is NaN
    when the expected amount is 0; the dollar variance then equals the
    actual amount. With 60 paid against 0 expected the percent variance is
    NaN (the bare quotient would be +inf) and the dollar variance is 60. *)
Theorem percent_variance_guarded :
  (forall (df : list WeeklyV5.Invoice.Row) (w : WeeklyV5.Weekly float),
     In w (WeeklyV5.weekly df) ->
     let actual := WeeklyV5.Payment_Amount w in
     let expected := WeeklyV5.Expected_Payment w in
     WeeklyV5.Revenue_Variance w = (actual - expected)%fl /\
     WeeklyV5.Revenue_Variance_Pct w =
       (if (expected ==? Fin 0)%fl then NaN
        else (WeeklyV5.Revenue_Variance w / expected)%fl) /\
     (feq expected (Fin 0) ->
      WeeklyV5.Revenue_Variance_Pct w = NaN /\
      feq (WeeklyV5.Revenue_Variance w) actual)) /\
  (forall (df : list BenchmarkV10.KeyedRow) (v : BenchmarkV10.VarianceRow),
     In v (BenchmarkV10.step6 df) ->
     let actual := BenchmarkV10.Payment_Amount (BenchmarkV10.base (BenchmarkV10.keyed v)) in
     let expected := BenchmarkV10.row_Benchmark_Payment v in
     BenchmarkV10.row_Payment_Diff v = (actual - expected)%fl /\
     BenchmarkV10.row_Payment_Pct_Diff v =
       (if (expected ==? Fin 0)%fl then NaN
        else (BenchmarkV10.row_Payment_Diff v / expected)%fl) /\
     (feq expected (Fin 0) ->
      BenchmarkV10.row_Payment_Pct_Diff v = NaN /\
      feq (BenchmarkV10.row_Payment_Diff v) actual)) /\
  map (@WeeklyV5.Revenue_Variance_Pct float) (WeeklyV5.weekly zero_expected) = [NaN] /\
  Forall2 feq (map (@WeeklyV5.Revenue_Variance float) (WeeklyV5.weekly zero_expected))
              [Fin 60] /\
  (Fin 60 / Fin 0)%fl = Inf false.
Proof.
  split; [|split; [|split; [reflexivity | split; [|reflexivity]]]];
    [| |repeat constructor; reflexivity].
  - intros df w Hw. rewrite (WeeklyV5Facts.weekly_In _ _ Hw). simpl.
    unfold WeeklyV5.revenue_variance_pct, np_where.
    split; [reflexivity|]. split; [reflexivity|].
    intros Hz. split.
    + apply feqb_zero in Hz. now rewrite Hz.
    + now apply fsub_zero.
  - intros df v Hv. unfold BenchmarkV10.step6 in Hv.
    apply in_map_iff in Hv. destruct Hv as (r & <- & _). simpl.
    unfold BenchmarkV10.Invoice_Payment_Pct_Diff_vs_Benchmark, np_where.
    split; [reflexivity|]. split; [reflexivity|].
    intros Hz. split.
    + apply feqb_zero in Hz. now rewrite Hz.
    + now apply fsub_zero.
Qed.

Lemma percent_variance_guarded_witness :
  let w := WeeklyV5.weekly_row zero_expected
             (WeeklyV5.group_key (line (Str "1001") (Fin 60) (Fin 1) (Fin 0)))
             zero_expected in
  feq (WeeklyV5.Expected_Payment w) (Fin 0) /\
  WeeklyV5.Revenue_Variance_Pct w = NaN /\
  feq (WeeklyV5.Revenue_Variance w) (WeeklyV5.Payment_Amount w).
Proof.
  intros w.
  assert (Hin : In w (WeeklyV5.weekly zero_expected)) by (left; reflexivity).
  assert (Hz : feq (WeeklyV5.Expected_Payment w) (Fin 0)) by reflexivity.
  destruct (proj1 percent_variance_guarded zero_expected w Hin) as (_ & _ & H).
  split; [exact Hz | exact (H Hz)].
Defined.

End VarianceFacts.

(* ================================================================= *)
(** ** revenue_performance_model.py: the performance label *)

Module RevenuePerformanceFacts.
Import Float FloatFacts RevenuePerformance.
Open Scope string_scope.

Lemma Qle_bool_false (a b : Q) : Qle_bool a b = false <-> b < a.
Proof.
  split.
  - intros H. apply Qnot_le_lt. intros Hle. apply Qle_bool_iff in Hle. congruence.
  - intros H. destruct (Qle_bool a b) eqn:E; [|reflexivity].
    apply Qle_bool_iff in E. exfalso. apply (Qlt_not_le _ _ H). exact E.
Qed.






End RevenuePerformanceFacts.

(* ================================================================= *)
(** ** invoice_benchmark_code_v6_updated.py: the low-payment tag *)

Module BenchmarkV6Facts.
Import Float FloatFacts Pandas PandasFacts BenchmarkV6 Samples.
Open Scope string_scope.

Lemma tag_low_payment_finite (p b : Q) :
  Tag_Low_Payment (Fin p) (Fin b) = true <-> p < (9 # 10) * b.
Proof.
  unfold Tag_Low_Payment. simpl.
  rewrite negb_true_iff. apply RevenuePerformanceFacts.Qle_bool_false.
Qed.



End BenchmarkV6Facts.

(* ================================================================= *)
(** ** Forward fill of the invoice number (source processor v3, benchmark v6) *)

Module ForwardFillFacts.
Import Pandas PandasFacts Samples.
Open Scope string_scope.



Lemma last_value_Missing (last : cell) (l : list cell) :
  last_value last l = Missing <-> last = Missing /\ Forall blank l.
Proof.
  revert last. induction l as [|[|s] l IH]; intros last; simpl.
  - split; [intros ->; split; [reflexivity | constructor] | tauto].
  - rewrite IH. split; intros [H1 H2]; split; try assumption.
    + constructor; [reflexivity | assumption].
    + now inversion H2.
  - rewrite IH. split; intros [H1 H2]; [discriminate|].
    inversion H2 as [|? ? Hs _]. discriminate.
Qed.

Lemma combine_map_second (A B C : Type) (f : A -> B -> C) (g : C -> B)
      (l : list A) (l' : list B) :
  (forall a b, g (f a b) = b) ->
  List.length l = List.length l' ->
  map g (map (fun p => f (fst p) (snd p)) (combine l l')) = l'.
Proof.
  intros Hg. revert l'. induction l as [|a l IH]; intros [|b l'] Hl;
    simpl in *; try discriminate; [reflexivity|].
  rewrite Hg. f_equal. apply IH. now injection Hl.
Qed.

Lemma combine_map_first (A B C D : Type) (f : A -> B -> C) (g : C -> D) (h : A -> D)
      (l : list A) (l' : list B) :
  (forall a b, g (f a b) = h a) ->
  List.length l = List.length l' ->
  map g (map (fun p => f (fst p) (snd p)) (combine l l')) = map h l.
Proof.
  intros Hg. revert l'. induction l as [|a l IH]; intros [|b l'] Hl;
    simpl in *; try discriminate; [reflexivity|].
  rewrite Hg. f_equal. apply IH. now injection Hl.
Qed.

Lemma ffill_length (l : list cell) : List.length (ffill l) = List.length l.
Proof. apply ffill_from_length. Qed.




Lemma ffill_nth (l : list cell) (i : nat) :
  (i < List.length l)%nat ->
  nth i (ffill l) Missing = last_value Missing (firstn (S i) l).
Proof. apply ffill_from_nth. Qed.

(** A row of the v6 index has an invoice number, and its CPT set was
    collected over the filled table. *)
Lemma v6_add_keys_Some (df : list BenchmarkV6.Clean) (r : BenchmarkV6.Clean)
      (kr : BenchmarkV6.KeyedRow) :
  BenchmarkV6.add_keys df r = Some kr ->
  BenchmarkV6.base kr = r /\
  BenchmarkV6.Invoice_Number r <> Missing /\
  BenchmarkV6.row_Invoice_CPT_Set kr =
    Str (Py.str_list (Py.sorted (Py.set_
           (BenchmarkV6.invoice_codes df (BenchmarkV6.Invoice_Number r))))).
Proof.
  unfold BenchmarkV6.add_keys, BenchmarkV6.Benchmark_Key.
  cbn [fold_left]. unfold BenchmarkV6.Invoice_CPT_Set.
  destruct (BenchmarkV6.Invoice_Number r) as [|inv] eqn:Einv.
  - cbn. discriminate.
  - cbn. intros [= <-]. cbn. repeat split. discriminate.
Qed.





End ForwardFillFacts.

(* ================================================================= *)
(** ** The sample values in binary64 *)

Module Binary64Facts.
Import PrimFloat Binary64.
Local Open Scope string_scope.
Local Open Scope float_scope.

(** Visits {1,1} and {1,9} with rates {100,200}; 60 paid against 0
    expected; payments 80 and 95 against a benchmark of 100; payments
    around an expected 100. *)
Example samples_binary64 :
  guarded_quotient (100 * 1 + 200 * 1) (1 + 1) = 150 /\
  guarded_quotient (100 * 1 + 200 * 9) (1 + 9) = 190 /\
  is_nan (guarded_quotient (100 * 0) 0) = true /\
  is_nan (guarded_quotient (60 - 0) 0) = true /\
  (60 - 0) / 0 = infinity /\
  Tag_Low_Payment 80 100 = true /\
  Tag_Low_Payment 95 100 = false /\
  classify_performance 105 100 = "Average Performance" /\
  classify_performance 95 100 = "Average Performance" /\
  classify_performance 106 100 = "Over Performing" /\
  classify_performance 94 100 = "Under Performing" /\
  classify_performance 50 0 = "No Data" /\
  classify_performance nan 100 = "No Data".
Proof. repeat split; reflexivity. Qed.

End Binary64Facts.

(* ================================================================= *)
(** ** Grouping is a partition of the table *)

Module GroupingFacts.
Import Float FloatFacts Pandas PandasFacts.
Import ColumnViews.

Section Partition.
Variables R K : Type.
Variable eqb : K -> K -> bool.
Variable leb : K -> K -> bool.
Variable key : R -> K.
Hypothesis eqb_eq : forall a b, eqb a b = true <-> a = b.

Lemma groups_skip_row (r : R) (df : list R) (ks : list K) :
  ~ In (key r) ks ->
  flat_map (group_rows eqb key (r :: df)) ks = flat_map (group_rows eqb key df) ks.
Proof using eqb_eq.
  induction ks as [|k ks IH]; intros Hn; simpl; [reflexivity|].
  destruct (eqb (key r) k) eqn:E.
  - exfalso. apply Hn. left. symmetry. now apply eqb_eq.
  - f_equal. apply IH. intros H. apply Hn. now right.
Qed.

Lemma groups_take_row (r : R) (df : list R) (ks : list K) :
  NoDup ks -> In (key r) ks ->
  Permutation (flat_map (group_rows eqb key (r :: df)) ks)
              (r :: flat_map (group_rows eqb key df) ks).
Proof using eqb_eq.
  induction 1 as [|k ks Hk Hnd IH]; intros Hin; [contradiction|].
  simpl. destruct (eqb (key r) k) eqn:E.
  - apply eqb_eq in E. subst k. rewrite groups_skip_row by assumption. reflexivity.
  - destruct Hin as [Hin|Hin].
    + subst k. rewrite (proj2 (eqb_eq _ _) eq_refl) in E. discriminate.
    + rewrite (IH Hin). symmetry. apply Permutation_middle.
Qed.

(** The groups of pairwise distinct keys hold, between them, every row
    whose key is one of the keys, once. *)
Lemma groups_partition (ks : list K) (df : list R) :
  NoDup ks ->
  Permutation (flat_map (group_rows eqb key df) ks)
              (filter (fun r => existsb (eqb (key r)) ks) df).
Proof using eqb_eq.
  intros Hnd. induction df as [|r df IH].
  - simpl. induction ks as [|k ks IHk]; simpl; [constructor|].
    inversion Hnd; subst. now apply IHk.
  - cbn [filter]. destruct (existsb (eqb (key r)) ks) eqn:E.
    + rewrite groups_take_row; [now constructor | assumption |].
      apply existsb_exists in E. destruct E as (k & Hk & Ek).
      apply eqb_eq in Ek. now subst k.
    + rewrite groups_skip_row; [assumption|].
      intros Hin. assert (existsb (eqb (key r)) ks = true); [|congruence].
      apply existsb_exists. exists (key r). split; [assumption|].
      now apply eqb_eq.
Qed.

Lemma groupby_flat (df : list R) :
  flat_map snd (groupby eqb leb key df)
  = flat_map (group_rows eqb key df) (map fst (groupby eqb leb key df)).
Proof.
  unfold groupby. generalize (Py.sort leb (unique eqb (map key df))) as ks.
  induction ks as [|k ks IH]; simpl; [reflexivity|]. now rewrite IH.
Qed.

(** [groupby(..., dropna=False)] loses no row and repeats none. *)
Lemma groupby_partition (df : list R) :
  Permutation (flat_map snd (groupby eqb leb key df)) df.
Proof using eqb_eq.
  rewrite groupby_flat.
  rewrite groups_partition by apply (groupby_keys_NoDup eqb leb key eqb_eq).
  assert (H : forall l, (forall r, In r l -> In r df) ->
            filter (fun r => existsb (eqb (key r))
                               (map fst (groupby eqb leb key df))) l = l).
  { induction l as [|r l IH]; intros Hl; simpl; [reflexivity|].
    assert (E : existsb (eqb (key r)) (map fst (groupby eqb leb key df)) = true).
    { apply existsb_exists. exists (key r). split; [|now apply eqb_eq].
      apply in_map_iff. exists (key r, group_rows eqb key df (key r)). split; [reflexivity|].
      apply (groupby_In eqb leb key eqb_eq). simpl. split; [|reflexivity].
      exists r. split; [apply Hl; now left | reflexivity]. }
    rewrite E. f_equal. apply IH. intros x Hx. apply Hl. now right. }
  rewrite H; [reflexivity | auto].
Qed.
End Partition.

Lemma dropna_not_inf (l : list float) :
  Forall not_inf l -> dropna l = map Fin (finite_values l).
Proof.
  induction 1 as [|x l Hx _ IH]; simpl; [reflexivity|].
  destruct x; simpl in *; [now f_equal | contradiction | assumption].
Qed.

Lemma sum_not_inf (l : list float) :
  Forall not_inf l -> exists s, sum l = Fin s /\ s == Qsum (finite_values l).
Proof.
  intros H. unfold sum. rewrite (dropna_not_inf H).
  exists (fold_left Qplus (finite_values l) 0). unfold fsum.
  rewrite fold_fadd_Fin. split; [reflexivity|].
  rewrite fold_Qplus_Qsum. ring.
Qed.

Lemma Qsum_app (l l' : list Q) : Qsum (l ++ l') == Qsum l + Qsum l'.
Proof.
  induction l as [|q l IH]; simpl; [ring|]. rewrite IH. ring.
Qed.

Lemma Qsum_perm (l l' : list Q) : Permutation l l' -> Qsum l == Qsum l'.
Proof.
  induction 1 as [|x l l' _ IH|x y l|l l' l'' _ IH1 _ IH2]; simpl.
  - reflexivity.
  - now rewrite IH.
  - ring.
  - now rewrite IH1.
Qed.

Lemma finite_values_app (l l' : list float) :
  finite_values (l ++ l') = finite_values l ++ finite_values l'.
Proof. unfold finite_values. apply flat_map_app. Qed.

Lemma finite_values_perm (l l' : list float) :
  Permutation l l' -> Permutation (finite_values l) (finite_values l').
Proof. unfold finite_values. apply Permutation_flat_map. Qed.

(** The sums of the parts of a column add up to the sum of the column. *)
Lemma sum_of_sums (parts : list (list float)) :
  Forall (Forall not_inf) parts ->
  exists s, sum (map sum parts) = Fin s /\ s == Qsum (finite_values (List.concat parts)).
Proof.
  intros H.
  assert (Hcol : exists qs, map sum parts = map Fin qs /\
                            Qsum qs == Qsum (finite_values (List.concat parts))).
  { induction H as [|l parts Hl _ (qs & Hqs & Hsum)].
    - exists []. split; reflexivity.
    - destruct (sum_not_inf Hl) as (s & Hs & Es).
      exists (s :: qs). simpl. rewrite Hs, Hqs. split; [reflexivity|].
      rewrite finite_values_app, Qsum_app, Es, Hsum. reflexivity. }
  destruct Hcol as (qs & -> & Hsum).
  destruct (sum_Fin qs) as (s & Hs & Es). exists s. split; [assumption|].
  now rewrite Es.
Qed.

Lemma present_app (l l' : list cell) : present (l ++ l') = present l ++ present l'.
Proof. unfold present. apply filter_app. Qed.

Lemma present_perm (l l' : list cell) :
  Permutation l l' -> Permutation (present l) (present l').
Proof.
  induction 1 as [|x l l' _ IH|x y l|l l' l'' _ IH1 _ IH2]; unfold present; simpl.
  - constructor.
  - destruct (isna x); simpl; [assumption | now constructor].
  - destruct (isna x), (isna y); simpl; try reflexivity. apply perm_swap.
  - now transitivity (present l').
Qed.

Lemma count_perm (l l' : list cell) : Permutation l l' -> count l = count l'.
Proof. intros H. unfold count. apply Permutation_length. now apply present_perm. Qed.

Lemma count_concat (parts : list (list cell)) :
  count (List.concat parts) = list_sum (map count parts).
Proof.
  induction parts as [|l parts IH]; simpl; [reflexivity|].
  unfold count in *. now rewrite present_app, length_app, IH.
Qed.

End GroupingFacts.

(* ================================================================= *)
(** ** weekly_model_generator_v5.py: the weekly table as a whole *)

Module WeeklyTableFacts.
Import Float FloatFacts Pandas PandasFacts GroupingFacts WeeklyV5 WeeklyV5Facts Samples.
Import ColumnViews WeeklyV5Views.
Open Scope string_scope.

Lemma weekly_groups (df : list Invoice.Row) :
  weekly df = map (fun g => weekly_row df (fst g) (snd g)) (groups df).
Proof. reflexivity. Qed.

Lemma weekly_keys (df : list Invoice.Row) :
  map (@key float) (weekly df) = map fst (groups df).
Proof. rewrite weekly_groups, map_map. reflexivity. Qed.

Lemma groups_rows (df : list Invoice.Row) :
  Permutation (List.concat (map snd (groups df))) df.
Proof.
  rewrite <- flat_map_concat_map.
  apply (groupby_partition key_eqb key_leb group_key key_eqb_eq).
Qed.

Lemma unique_length (K : Type) (eqb : K -> K -> bool) (l : list K) :
  (List.length (unique eqb l) <= List.length l)%nat.
Proof.
  induction l as [|c l IH]; simpl; [lia|].
  pose proof (filter_length_le (fun y => negb (eqb c y)) (unique eqb l)). lia.
Qed.

(** X1: the weekly table has one row for every distinct combination of year,
    week, payer, group, secondary group and benchmark key of the input, and
    no other row: its keys are pairwise distinct, a key is in it exactly
    when some input row carries it, and it is no longer than the input. *)
Theorem weekly_one_row_per_key (df : list Invoice.Row) :
  NoDup (map (@key float) (weekly df)) /\
  (forall k, In k (map (@key float) (weekly df)) <->
             exists r, In r df /\ group_key r = k) /\
  (List.length (weekly df) <= List.length df)%nat.
Proof.
  split; [|split].
  - rewrite weekly_keys.
    apply (groupby_keys_NoDup key_eqb key_leb group_key key_eqb_eq).
  - intros k. rewrite weekly_keys, in_map_iff. split.
    + intros (g & <- & Hg).
      apply (groupby_In key_eqb key_leb group_key key_eqb_eq) in Hg.
      destruct Hg as ((r & Hr & Hk) & _). eauto.
    + intros (r & Hr & <-).
      exists (group_key r, group_rows key_eqb group_key df (group_key r)).
      split; [reflexivity|].
      apply (groupby_In key_eqb key_leb group_key key_eqb_eq). simpl.
      split; [eauto | reflexivity].
  - unfold weekly, groupby. rewrite !length_map.
    rewrite <- (Permutation_length (PyFacts.sort_perm key_leb _)).
    rewrite <- (length_map group_key df). apply unique_length.
Qed.

Lemma group_payments_not_inf (col : Invoice.Row -> float) (df : list Invoice.Row) :
  Forall not_inf (map col df) ->
  Forall (Forall not_inf) (map (fun g => map col (snd g)) (groups df)).
Proof.
  intros H. apply Forall_forall. intros l Hl. apply in_map_iff in Hl.
  destruct Hl as (g & <- & Hg).
  apply (groupby_In key_eqb key_leb group_key key_eqb_eq) in Hg.
  destruct Hg as (_ & ->). apply Forall_forall. intros x Hx.
  apply in_map_iff in Hx. destruct Hx as (r & <- & Hr).
  apply (group_rows_In key_eqb group_key key_eqb_eq) in Hr.
  rewrite Forall_forall in H. apply H. apply in_map. tauto.
Qed.

Lemma column_sum_conserved (col : Invoice.Row -> float) (df : list Invoice.Row) :
  Forall not_inf (map col df) ->
  feq (sum (map (fun g => sum (map col (snd g))) (groups df))) (sum (map col df)).
Proof.
  intros H.
  destruct (sum_of_sums (group_payments_not_inf col df H)) as (s & Hs & Es).
  destruct (sum_not_inf H) as (t & Ht & Et).
  rewrite map_map in Hs. rewrite Hs, Ht. simpl. rewrite Es, Et.
  apply Qsum_perm, finite_values_perm.
  rewrite <- map_map, <- concat_map. apply Permutation_map, groups_rows.
Qed.

(** X2: grouping loses no detail row and no dollar: the group sizes of the
    weekly table add up to the number of input rows that have an invoice
    number, and, when no input cell of the column is infinite, the charge
    and payment columns of the weekly table sum to the input columns. *)
Theorem weekly_conserves_rows_and_dollars (df : list Invoice.Row) :
  Forall not_inf (map Invoice.Payment_Amount df) ->
  Forall not_inf (map Invoice.Charge_Amount df) ->
  list_sum (map (@Group_Size float) (weekly df))
    = count (map Invoice.Invoice_Number df) /\
  feq (sum (map (@Payment_Amount float) (weekly df)))
      (sum (map Invoice.Payment_Amount df)) /\
  feq (sum (map (@Charge_Amount float) (weekly df)))
      (sum (map Invoice.Charge_Amount df)).
Proof.
  intros Hp Hc. split; [|split].
  - rewrite weekly_groups, map_map. simpl.
    rewrite <- (map_map (fun g => map Invoice.Invoice_Number (snd g)) count).
    rewrite <- count_concat. apply count_perm.
    rewrite <- (map_map snd (map Invoice.Invoice_Number)), <- concat_map.
    apply Permutation_map, groups_rows.
  - rewrite weekly_groups, map_map. simpl. now apply column_sum_conserved.
  - rewrite weekly_groups, map_map. simpl. now apply column_sum_conserved.
Qed.

Lemma weekly_conserves_rows_and_dollars_witness :
  list_sum (map (@Group_Size float) (weekly three_lines))
    = count (map Invoice.Invoice_Number three_lines) /\
  feq (sum (map (@Payment_Amount float) (weekly three_lines)))
      (sum (map Invoice.Payment_Amount three_lines)) /\
  feq (sum (map (@Charge_Amount float) (weekly three_lines)))
      (sum (map Invoice.Charge_Amount three_lines)).
Proof.
  apply (weekly_conserves_rows_and_dollars three_lines);
    repeat constructor.
Defined.

Lemma unique_nil (K : Type) (eqb : K -> K -> bool) (l : list K) :
  unique eqb l = [] -> l = [].
Proof. destruct l; simpl; [reflexivity | discriminate]. Qed.

Lemma nunique_zero (l : list cell) :
  nunique l = 0%nat <-> Forall blank l.
Proof.
  unfold nunique. split.
  - intros H. apply length_zero_iff_nil, unique_nil in H.
    apply Forall_forall. intros c Hc. destruct c as [|s]; [reflexivity|].
    assert (Hin : In (Str s) (present l)) by (apply present_In; split; [assumption | discriminate]).
    rewrite H in Hin. contradiction.
  - intros H. assert (E : present l = []).
    { induction H as [|c l Hc _ IH]; [reflexivity|]. rewrite Hc. exact IH. }
    now rewrite E.
Qed.

(** X3: only [Revenue_Variance_Pct] is guarded in v5. A group none of whose
    rows has an invoice number has [Visit_Count] 0, and its
    [Actual_Rate_per_Visit], the bare quotient payment / visits, is then
    NaN or an infinity, never a number; a group with a visit and a finite
    payment has the finite rate payment / visits. *)
Theorem actual_rate_per_visit_unguarded (df : list Invoice.Row) (w : Weekly float) :
  In w (weekly df) ->
  (Visit_Count w = 0%nat <->
   forall r, In r df -> group_key r = key w -> Invoice.Invoice_Number r = Missing) /\
  (Visit_Count w = 0%nat -> forall q, Actual_Rate_per_Visit w <> Fin q) /\
  (forall p, (0 < Visit_Count w)%nat -> Payment_Amount w = Fin p ->
             exists q, Actual_Rate_per_Visit w = Fin q /\
                       q * inject_Z (Z.of_nat (Visit_Count w)) == p).
Proof.
  intros Hw. rewrite (weekly_In _ _ Hw). simpl.
  set (rows := group_rows key_eqb group_key df (key w)).
  set (visits := nunique (map Invoice.Invoice_Number rows)).
  split; [|split].
  - unfold visits. rewrite nunique_zero, Forall_forall. split.
    + intros H r Hr Hk. apply H. apply in_map.
      apply (group_rows_In key_eqb group_key key_eqb_eq). tauto.
    + intros H c Hc. apply in_map_iff in Hc. destruct Hc as (r & <- & Hr).
      apply (group_rows_In key_eqb group_key key_eqb_eq) in Hr.
      apply H; tauto.
  - intros -> q. unfold of_nat, of_Z. simpl.
    destruct (sum (map Invoice.Payment_Amount rows)) as [a|s|]; simpl; try discriminate.
    change (Qeq_bool (inject_Z 0) 0) with true. cbn.
    destruct (Qeq_bool a 0); discriminate.
  - intros p Hv ->. unfold of_nat, of_Z.
    assert (Hne : ~ inject_Z (Z.of_nat visits) == 0).
    { intros E. unfold Qeq in E. simpl in E. lia. }
    rewrite (fdiv_Fin _ Hne). eexists. split; [reflexivity|]. now field.
Qed.

Lemma actual_rate_per_visit_unguarded_witness :
  let df := [line Missing (Fin 60) (Fin 1) (Fin 100)] in
  let w := weekly_row df (group_key (line Missing (Fin 60) (Fin 1) (Fin 100))) df in
  Visit_Count w = 0%nat /\ forall q, Actual_Rate_per_Visit w <> Fin q.
Proof.
  intros df w.
  assert (Hin : In w (weekly df)) by (left; reflexivity).
  assert (Hz : Visit_Count w = 0%nat) by reflexivity.
  split; [exact Hz|].
  exact (proj1 (proj2 (actual_rate_per_visit_unguarded df w Hin)) Hz).
Defined.

(** X4: the rate view and the dollar view of a weekly row agree: with a
    visit, a finite payment and a finite expected rate, the rate variance
    times the visit count is the revenue variance. *)
Theorem rate_and_dollar_variance_agree (df : list Invoice.Row) (w : Weekly float)
        (p e : Q) :
  In w (weekly df) ->
  (0 < Visit_Count w)%nat ->
  Payment_Amount w = Fin p ->
  Expected_Amount_85_EM_invoice_level w = Fin e ->
  feq (Rate_Variance w * of_nat (Visit_Count w))%fl (Revenue_Variance w).
Proof.
  intros Hw. rewrite (weekly_In _ _ Hw). simpl.
  set (visits := nunique _). intros Hv -> ->.
  unfold revenue_variance, expected_payment, of_nat, of_Z.
  assert (Hne : ~ inject_Z (Z.of_nat visits) == 0).
  { intros E. unfold Qeq in E. simpl in E. lia. }
  rewrite (fdiv_Fin _ Hne). simpl. now field.
Qed.

Lemma rate_and_dollar_variance_agree_witness :
  let w := weekly_row three_lines
             (group_key (line (Str "1001") (Fin 60) (Fin 1) (Fin 100))) three_lines in
  feq (Rate_Variance w * of_nat (Visit_Count w))%fl (Revenue_Variance w).
Proof.
  intros w.
  assert (Hp : exists p, Payment_Amount w = Fin p) by (eexists; reflexivity).
  destruct Hp as (p & Hp).
  apply (@rate_and_dollar_variance_agree three_lines w p 100).
  - left. reflexivity.
  - unfold w. cbn. lia.
  - exact Hp.
  - reflexivity.
Defined.

Lemma format_percent_None (x : float) :
  format_percent x = None <->
  (exists s, x = Inf s) \/
  (exists q, x = Fin q /\ in_int64 (round_half_even (q * 100)) = false).
Proof.
  destruct x as [q|s|]; unfold format_percent; simpl.
  - destruct (in_int64 (round_half_even (q * 100))) eqn:E; split.
    + discriminate.
    + intros [(s & H)|(q' & H & H')]; [discriminate|].
      injection H as <-. congruence.
    + intros _. right. eauto.
    + reflexivity.
  - split; [intros _; left; eauto | reflexivity].
  - change (in_int64 (round_half_even (0 * 100))) with true. cbv iota.
    split; [discriminate|].
    intros [(s & H)|(q & H & _)]; discriminate.
Qed.

Lemma traverse_None (A B : Type) (f : A -> option B) (l : list A) :
  Exn.traverse f l = None <-> Exists (fun x => f x = None) l.
Proof.
  induction l as [|x l IH]; simpl.
  - split; [discriminate | intros H; inversion H].
  - destruct (f x) eqn:E.
    + destruct (Exn.traverse f l); split.
      * discriminate.
      * intros H. inversion H as [? ? H1|? ? H1]; subst; [congruence|].
        apply IH in H1. discriminate.
      * intros _. right. now apply IH.
      * reflexivity.
    + split; [intros _; now left | reflexivity].
Qed.

Lemma format_row_None (w : Weekly float) :
  format_row w = None <-> Exists (fun x => format_percent x = None) (rate_cols w).
Proof.
  unfold format_row, bind, rate_cols.
  destruct (format_percent (Zero_Balance_Collection_Rate w)) eqn:E1;
    [|split; [intros _; now left | reflexivity]].
  destruct (format_percent (Collection_Rate w)) eqn:E2;
    [|split; [intros _; right; now left | reflexivity]].
  destruct (format_percent (Denial_Percent w)) eqn:E3;
    [|split; [intros _; do 2 right; now left | reflexivity]].
  destruct (format_percent (NRV_Gap_Percent w)) eqn:E4;
    [|split; [intros _; do 3 right; now left | reflexivity]].
  destruct (format_percent (Remaining_Charges_Percent w)) eqn:E5;
    [|split; [intros _; do 4 right; now left | reflexivity]].
  destruct (format_percent (Benchmark_Zero_Balance_Collection_Rate w)) eqn:E6;
    [|split; [intros _; do 5 right; now left | reflexivity]].
  destruct (format_percent (Benchmark_Collection_Rate w)) eqn:E7;
    [|split; [intros _; do 6 right; now left | reflexivity]].
  destruct (format_percent (Revenue_Variance_Pct w)) eqn:E8;
    [|split; [intros _; do 7 right; now left | reflexivity]].
  split; [discriminate|].
  intros H. repeat (inversion H as [? ? H1|? ? H1]; subst; [congruence|]; clear H; rename H1 into H).
  inversion H.
Qed.

(** X5: the export of Step 8 raises exactly when some cell of [rate_cols] is
    an infinity or, times 100 and rounded, leaves the int64 range; a
    missing cell never makes it raise, and neither does a finite cell of
    magnitude up to 10^16. *)
Theorem percent_export_failure :
  (forall t : list (Weekly float),
     step8 t = None <->
     Exists (fun w =>
               Exists (fun x =>
                         (exists s, x = Inf s) \/
                         (exists q, x = Fin q /\
                                    in_int64 (round_half_even (q * 100)) = false))
                      (rate_cols w)) t) /\
  (forall q : Q, - inject_Z (10 ^ 16) <= q <= inject_Z (10 ^ 16) ->
                 format_percent (Fin q) <> None) /\
  format_percent NaN <> None.
Proof.
  split; [|split].
  - intros t. unfold step8. rewrite traverse_None.
    split; intros H; (eapply Exists_impl; [|exact H]); intros w Hw.
    + apply format_row_None in Hw. eapply Exists_impl; [|exact Hw].
      intros x. apply format_percent_None.
    + apply format_row_None. eapply Exists_impl; [|exact Hw].
      intros x. apply format_percent_None.
  - intros q [Hlo Hhi] H. apply format_percent_None in H.
    destruct H as [(s & H)|(q' & H & Hr)]; [discriminate|]. injection H as <-.
    pose proof (round_half_even_near (q * 100)) as [Hn1 Hn2].
    unfold in_int64 in Hr. apply andb_false_iff in Hr.
    set (z := round_half_even (q * 100)) in *.
    assert (Hz1 : inject_Z (- 2 ^ 63) <= inject_Z z).
    { apply Qle_trans with (q * 100 - (1 # 2)); [|assumption].
      apply Qle_trans with (- inject_Z (10 ^ 16) * 100 - (1 # 2)); [discriminate|]. lra. }
    assert (Hz2 : inject_Z z < inject_Z (2 ^ 63)).
    { apply Qle_lt_trans with (q * 100 + (1 # 2)); [assumption|].
      apply Qle_lt_trans with (inject_Z (10 ^ 16) * 100 + (1 # 2)); [lra | reflexivity]. }
    rewrite <- Zle_Qle in Hz1. rewrite <- Zlt_Qlt in Hz2.
    destruct Hr as [Hr|Hr]; [apply Z.leb_gt in Hr | apply Z.ltb_ge in Hr]; lia.
  - discriminate.
Qed.

Lemma percent_export_failure_witness :
  - inject_Z (10 ^ 16) <= 5 # 100 <= inject_Z (10 ^ 16) /\
  format_percent (Fin (5 # 100)) <> None.
Proof.
  assert (H : - inject_Z (10 ^ 16) <= 5 # 100 <= inject_Z (10 ^ 16))
    by (split; discriminate).
  split; [exact H|].
  exact (proj1 (proj2 percent_export_failure) (5 # 100) H).
Defined.

End WeeklyTableFacts.

(* ================================================================= *)
(** ** The characters of [str(n)] *)

Module StrIntFacts.
Import Py.
Import TextViews.
Open Scope string_scope.

Lemma uint_digits (d : Decimal.uint) :
  forallb is_digit (list_ascii_of_string (NilEmpty.string_of_uint d)) = true.
Proof. induction d; simpl; auto. Qed.

Lemma nilzero_uint_digits (d : Decimal.uint) :
  forallb is_digit (list_ascii_of_string (NilZero.string_of_uint d)) = true.
Proof. destruct d; try reflexivity; apply (uint_digits _). Qed.

Lemma nilzero_uint_nonempty (d : Decimal.uint) : NilZero.string_of_uint d <> "".
Proof. destruct d; discriminate. Qed.

Lemma forallb_weaken (A : Type) (p q : A -> bool) (l : list A) :
  (forall x, p x = true -> q x = true) -> forallb p l = true -> forallb q l = true.
Proof.
  intros H. rewrite !forallb_forall. auto.
Qed.

(** [str(n)] is a non-empty run of digits, after a minus sign when
    [n < 0]. *)
Lemma str_int_chars (z : Z) :
  forallb digit_or_minus (list_ascii_of_string (str_int z)) = true /\ str_int z <> "".
Proof.
  unfold str_int. destruct (Z.to_int z) as [d|d]; simpl.
  - split; [|apply nilzero_uint_nonempty].
    eapply forallb_weaken; [|apply nilzero_uint_digits].
    intros c Hc. unfold digit_or_minus. now rewrite Hc.
  - split; [|discriminate].
    eapply forallb_weaken; [|apply nilzero_uint_digits].
    intros c Hc. unfold digit_or_minus. now rewrite Hc.
Qed.

Lemma str_int_head (z : Z) :
  exists c rest, str_int z = String c rest /\ digit_or_minus c = true.
Proof.
  destruct (str_int_chars z) as [Hall Hne].
  destruct (str_int z) as [|c rest]; [contradiction|].
  simpl in Hall. apply andb_true_iff in Hall. exists c, rest. tauto.
Qed.

End StrIntFacts.

(* ================================================================= *)
(** ** generate_weekly_metrics.py: the aggregated table and the export *)

Module GenerateWeeklyMetricsFacts.
Import Float FloatFacts Pandas PandasFacts GroupingFacts WeeklyV5Facts WeeklyTableFacts.
Import GenerateWeeklyMetrics MoreSamples.
Import ColumnViews WeeklyV5Views GenerateWeeklyMetricsViews.
Open Scope string_scope.

Lemma macro_eqb_eq (a b : MacroKey) : macro_eqb a b = true <-> a = b.
Proof.
  destruct a, b. unfold macro_eqb. simpl.
  rewrite !andb_true_iff, !num_eqb_eq, !cell_eqb_eq. split.
  - intros [[[[-> ->] ->] ->] ->]. reflexivity.
  - intros [= -> -> -> -> ->]. repeat split.
Qed.

(** X6: Step 7 keeps a missing cell apart from every number, where the export
    of weekly_model_generator_v5 fills it with 0 first: a cell is rendered
    [<NA>%] exactly when it is missing, and v5 renders a cell as this
    script renders the cell with NaN replaced by 0. *)
Theorem format_pct_keeps_missing :
  (forall (x : float) (s : string),
     format_pct x = Some s -> (s = "<NA>%" <-> x = NaN)) /\
  (forall x : float,
     WeeklyV5.format_percent x = format_pct (WeeklyV5.fillna (Fin 0) x)) /\
  (forall q : Q, format_pct (Fin q) = WeeklyV5.format_percent (Fin q)).
Proof.
  split; [|split].
  - intros x s. destruct x as [q|b|]; unfold format_pct; simpl.
    + destruct (WeeklyV5.in_int64 _); [|discriminate]. intros [= <-].
      split; [|discriminate].
      destruct (StrIntFacts.str_int_head (WeeklyV5.round_half_even (q * 100)))
        as (c & rest & -> & Hc).
      simpl. intros [= -> _]. discriminate.
    + discriminate.
    + intros [= <-]. split; reflexivity.
  - intros [q|b|]; reflexivity.
  - reflexivity.
Qed.

Lemma format_pct_keeps_missing_witness :
  format_pct NaN = Some "<NA>%" /\ ("<NA>%" = "<NA>%" <-> NaN = NaN).
Proof.
  assert (H : format_pct NaN = Some "<NA>%") by reflexivity.
  split; [exact H|].
  exact (proj1 format_pct_keeps_missing NaN "<NA>%" H).
Defined.

Lemma nunique_ext (l l' : list cell) :
  (forall c, In c l <-> In c l') -> nunique l = nunique l'.
Proof.
  intros H. unfold nunique. apply Permutation_length, NoDup_Permutation;
    try apply (unique_NoDup cell_eqb cell_eqb_eq).
  intros c. rewrite !(unique_In cell_eqb cell_eqb_eq), !present_In, H. reflexivity.
Qed.

Lemma nunique_perm (l l' : list cell) : Permutation l l' -> nunique l = nunique l'.
Proof.
  intros H. apply nunique_ext. intros c. split; apply Permutation_in;
    [assumption | now symmetry].
Qed.

Lemma nunique_app_le (l l' : list cell) :
  (nunique (l ++ l') <= nunique l + nunique l')%nat.
Proof.
  unfold nunique. rewrite <- length_app. apply NoDup_incl_length.
  - apply (unique_NoDup cell_eqb cell_eqb_eq).
  - intros c Hc. apply (unique_In cell_eqb cell_eqb_eq), present_In in Hc.
    destruct Hc as [Hc Hne]. apply in_app_iff.
    apply in_app_iff in Hc.
    destruct Hc as [Hc|Hc]; [left | right];
      apply (unique_In cell_eqb cell_eqb_eq), present_In; tauto.
Qed.

Lemma nunique_concat_le (parts : list (list cell)) :
  (nunique (List.concat parts) <= list_sum (map nunique parts))%nat.
Proof.
  induction parts as [|l parts IH]; simpl; [reflexivity|].
  pose proof (nunique_app_le l (List.concat parts)). lia.
Qed.

Lemma nunique_le_count (l : list cell) : (nunique l <= count l)%nat.
Proof. apply unique_length_le. Qed.

Lemma list_sum_le (A : Type) (f g : A -> nat) (l : list A) :
  (forall x, In x l -> (f x <= g x)%nat) ->
  (list_sum (map f l) <= list_sum (map g l))%nat.
Proof.
  induction l as [|x l IH]; simpl; intros H; [lia|].
  pose proof (H x (or_introl eq_refl)).
  assert (list_sum (map f l) <= list_sum (map g l))%nat by (apply IH; auto). lia.
Qed.

Lemma filter_map_comm (A B : Type) (p : B -> bool) (f : A -> B) (l : list A) :
  filter p (map f l) = map f (filter (fun x => p (f x)) l).
Proof.
  induction l as [|x l IH]; simpl; [reflexivity|].
  destruct (p (f x)); simpl; now rewrite IH.
Qed.

Lemma bool_ext (a b : bool) : (a = true <-> b = true) -> a = b.
Proof.
  destruct a, b; intros [H1 H2]; try reflexivity.
  - symmetry. now apply H1.
  - now apply H2.
Qed.

Lemma macro_groups_partition (df : list Row) (m : MacroKey) :
  Permutation (List.concat (map snd (macro_groups df m)))
              (group_rows macro_eqb macro_key df m).
Proof.
  assert (Hsnd : map snd (macro_groups df m)
                 = map (group_rows WeeklyV5.key_eqb granular_key df)
                       (map fst (macro_groups df m))).
  { rewrite map_map. apply map_ext_in. intros g Hg.
    apply filter_In in Hg. destruct Hg as [Hg _].
    apply (groupby_In WeeklyV5.key_eqb WeeklyV5.key_leb granular_key key_eqb_eq) in Hg.
    tauto. }
  rewrite Hsnd, <- flat_map_concat_map.
  rewrite (groups_partition WeeklyV5.key_eqb granular_key key_eqb_eq).
  - unfold group_rows. apply Permutation_refl'. apply filter_ext_in.
    intros r Hr. apply bool_ext. rewrite existsb_exists, macro_eqb_eq. split.
    + intros (k & Hk & Ek). apply key_eqb_eq in Ek. subst k.
      apply in_map_iff in Hk. destruct Hk as (g & Hfst & Hg).
      apply filter_In in Hg. destruct Hg as [_ Hm].
      apply macro_eqb_eq in Hm. rewrite Hfst in Hm. exact Hm.
    + intros Hm. exists (granular_key r). split; [|now apply key_eqb_eq].
      apply in_map_iff.
      exists (granular_key r, group_rows WeeklyV5.key_eqb granular_key df (granular_key r)).
      split; [reflexivity|]. apply filter_In. split.
      * apply (groupby_In WeeklyV5.key_eqb WeeklyV5.key_leb granular_key key_eqb_eq).
        simpl. split; [eauto | reflexivity].
      * simpl. now apply macro_eqb_eq.
  - unfold macro_groups.
    replace (map fst (filter (fun g => macro_eqb (macro_of (fst g)) m) (granular_groups df)))
      with (filter (fun k => macro_eqb (macro_of k) m) (map fst (granular_groups df)))
      by apply filter_map_comm.
    apply NoDup_filter.
    apply (groupby_keys_NoDup WeeklyV5.key_eqb WeeklyV5.key_leb granular_key key_eqb_eq).
Qed.

Lemma agg_In (df : list Row) (a : Agg) :
  In a (agg df) ->
  a = agg_row df (a_key a)
              (map (fun g => granular_row df (fst g) (snd g)) (macro_groups df (a_key a))).
Proof.
  unfold agg. rewrite in_map_iff. intros ((m, ws) & <- & Hg).
  apply (groupby_In macro_eqb macro_leb (fun w => macro_of (key w)) macro_eqb_eq) in Hg.
  simpl in *. destruct Hg as (_ & ->). f_equal.
  unfold group_rows, weekly. rewrite filter_map_comm. reflexivity.
Qed.

(** X7: in every row of the aggregated table the distinct invoices of the
    macro group (6B) are at most the summed per-key visit counts (6A),
    which are at most the number of detail rows: an invoice that appears
    under two benchmark keys of the group is counted twice in
    [Visit_Count], never in [Benchmark_Invoice_Count], and [Volume_Gap]
    is never negative. *)
Theorem agg_invoice_counts (df : list Row) (a : Agg) :
  In a (agg df) ->
  (Benchmark_Invoice_Count a <= a_Visit_Count a)%nat /\
  (a_Visit_Count a <= a_Group_Size a)%nat /\
  a_Group_Size a
    = count (map Invoice_Number (group_rows macro_eqb macro_key df (a_key a))) /\
  (0 <= Volume_Gap a)%Z.
Proof.
  intros Ha. rewrite (agg_In _ _ Ha). simpl. rewrite !map_map. simpl.
  set (G := macro_groups df (a_key a)).
  set (parts := map (fun g => map Invoice_Number (snd g)) G).
  assert (Hperm : Permutation (List.concat parts)
                    (map Invoice_Number (group_rows macro_eqb macro_key df (a_key a)))).
  { unfold parts. rewrite <- (map_map snd (map Invoice_Number)), <- concat_map.
    apply Permutation_map, macro_groups_partition. }
  assert (H1 : (agg_benchmark_counts df (a_key a)
                <= list_sum (map (fun g => nunique (map Invoice_Number (snd g))) G))%nat).
  { unfold agg_benchmark_counts. rewrite <- (nunique_perm Hperm).
    rewrite <- (map_map (fun g => map Invoice_Number (snd g)) nunique).
    apply nunique_concat_le. }
  assert (H2 : (list_sum (map (fun g => nunique (map Invoice_Number (snd g))) G)
                <= list_sum (map (fun g => count (map Invoice_Number (snd g))) G))%nat).
  { apply list_sum_le. intros g _. apply nunique_le_count. }
  assert (H3 : list_sum (map (fun g => count (map Invoice_Number (snd g))) G)
               = count (map Invoice_Number (group_rows macro_eqb macro_key df (a_key a)))).
  { rewrite <- (count_perm Hperm), count_concat. unfold parts. now rewrite map_map. }
  repeat split; try assumption. lia.
Qed.

Lemma agg_invoice_counts_witness :
  exists a, In a (agg double_keyed_invoice) /\
            Benchmark_Invoice_Count a = 1%nat /\ a_Visit_Count a = 2%nat /\
            (Benchmark_Invoice_Count a <= a_Visit_Count a)%nat /\
            (a_Visit_Count a <= a_Group_Size a)%nat /\
            a_Group_Size a
              = count (map Invoice_Number
                           (group_rows macro_eqb macro_key double_keyed_invoice (a_key a))) /\
            (0 <= Volume_Gap a)%Z.
Proof.
  eexists. split; [left; reflexivity|]. split; [reflexivity|]. split; [reflexivity|].
  apply (agg_invoice_counts double_keyed_invoice). left. reflexivity.
Defined.

Lemma nunique_app_disjoint (l l' : list cell) :
  (forall c, c <> Missing -> In c l -> ~ In c l') ->
  nunique (l ++ l') = (nunique l + nunique l')%nat.
Proof.
  intros Hd. unfold nunique. rewrite <- length_app.
  apply Permutation_length, NoDup_Permutation.
  - apply (unique_NoDup cell_eqb cell_eqb_eq).
  - apply NoDup_app; try apply (unique_NoDup cell_eqb cell_eqb_eq).
    intros c Hc Hc'.
    apply (unique_In cell_eqb cell_eqb_eq), present_In in Hc.
    apply (unique_In cell_eqb cell_eqb_eq), present_In in Hc'.
    apply (Hd c); tauto.
  - intros c. rewrite in_app_iff, !(unique_In cell_eqb cell_eqb_eq), !present_In, in_app_iff.
    tauto.
Qed.

Lemma nunique_groups_disjoint (A : Type) (inv : A -> list cell) (k : A -> WeeklyV5.GroupKey)
      (G : list A) :
  NoDup (map k G) ->
  (forall g1 g2 c, In g1 G -> In g2 G -> c <> Missing ->
                   In c (inv g1) -> In c (inv g2) -> k g1 = k g2) ->
  nunique (List.concat (map inv G)) = list_sum (map (fun g => nunique (inv g)) G).
Proof.
  induction G as [|g G IH]; intros Hnd H; simpl; [reflexivity|].
  inversion Hnd as [|? ? Hg Hnd']; subst.
  rewrite nunique_app_disjoint, IH; try assumption; [reflexivity | |].
  - intros g1 g2 c H1 H2. apply H; now right.
  - intros c Hne Hc Hc'. apply in_concat in Hc'. destruct Hc' as (l & Hl & Hcl).
    apply in_map_iff in Hl. destruct Hl as (g' & <- & Hg').
    apply Hg. rewrite (H g g' c); auto; [now apply in_map | now left | now right].
Qed.

Lemma granular_key_split (k1 k2 : WeeklyV5.GroupKey) :
  macro_of k1 = macro_of k2 ->
  WeeklyV5.k_Benchmark_Key k1 = WeeklyV5.k_Benchmark_Key k2 -> k1 = k2.
Proof.
  destruct k1, k2. unfold macro_of. simpl. intros [= -> -> -> -> ->] ->. reflexivity.
Qed.

(** X8: the summed visit count of 6A is exact under the condition its comment
    names: when, within the macro group, no invoice number occurs under
    two benchmark keys, [Visit_Count] equals the number of distinct
    invoices of the group. *)
Theorem agg_visit_count_exact (df : list Row) (a : Agg) :
  In a (agg df) ->
  (forall r1 r2, In r1 df -> In r2 df ->
                 macro_key r1 = a_key a -> macro_key r2 = a_key a ->
                 Invoice_Number r1 <> Missing ->
                 Invoice_Number r1 = Invoice_Number r2 ->
                 Benchmark_Key r1 = Benchmark_Key r2) ->
  a_Visit_Count a = Benchmark_Invoice_Count a.
Proof.
  intros Ha Hone. rewrite (agg_In _ _ Ha). simpl. rewrite !map_map. simpl.
  set (m := a_key a) in *. set (G := macro_groups df m).
  assert (HG : forall g, In g G ->
             macro_of (fst g) = m /\
             forall c, In c (map Invoice_Number (snd g)) ->
                       exists r, In r df /\ granular_key r = fst g /\ Invoice_Number r = c).
  { intros g Hg. apply filter_In in Hg. destruct Hg as [Hg Hm].
    apply macro_eqb_eq in Hm. split; [assumption|].
    apply (groupby_In WeeklyV5.key_eqb WeeklyV5.key_leb granular_key key_eqb_eq) in Hg.
    destruct Hg as (_ & Hrows). intros c Hc. rewrite Hrows in Hc.
    apply in_map_iff in Hc. destruct Hc as (r & <- & Hr).
    apply (group_rows_In WeeklyV5.key_eqb granular_key key_eqb_eq) in Hr.
    exists r. tauto. }
  unfold agg_benchmark_counts.
  rewrite <- (nunique_perm (Permutation_map Invoice_Number (macro_groups_partition df m))).
  rewrite concat_map, map_map. fold G. symmetry.
  apply (nunique_groups_disjoint (fun g => map Invoice_Number (snd g)) fst).
  - unfold G, macro_groups.
    replace (map fst (filter (fun g => macro_eqb (macro_of (fst g)) m) (granular_groups df)))
      with (filter (fun k => macro_eqb (macro_of k) m) (map fst (granular_groups df)))
      by apply filter_map_comm.
    apply NoDup_filter.
    apply (groupby_keys_NoDup WeeklyV5.key_eqb WeeklyV5.key_leb granular_key key_eqb_eq).
  - intros g1 g2 c H1 H2 Hne Hc1 Hc2.
    destruct (HG g1 H1) as (Hm1 & Hr1). destruct (HG g2 H2) as (Hm2 & Hr2).
    destruct (Hr1 c Hc1) as (r1 & Hin1 & Hk1 & Hi1).
    destruct (Hr2 c Hc2) as (r2 & Hin2 & Hk2 & Hi2).
    rewrite <- Hk1, <- Hk2. apply granular_key_split.
    + fold (macro_key r1). fold (macro_key r2).
      unfold macro_key. rewrite Hk1, Hk2, Hm1, Hm2. reflexivity.
    + apply (Hone r1 r2); try assumption.
      * unfold macro_key. now rewrite Hk1.
      * unfold macro_key. now rewrite Hk2.
      * now rewrite Hi1.
      * now rewrite Hi1, Hi2.
Qed.

Lemma agg_visit_count_exact_witness :
  exists a, In a (agg single_keyed_invoices) /\
            a_Visit_Count a = 2%nat /\
            a_Visit_Count a = Benchmark_Invoice_Count a.
Proof.
  eexists. split; [left; reflexivity|]. split; [reflexivity|].
  apply (agg_visit_count_exact single_keyed_invoices); [left; reflexivity|].
  intros r1 r2 H1 H2 _ _ Hne Heq.
  simpl in H1, H2.
  destruct H1 as [<-|[<-|[<-|[]]]]; destruct H2 as [<-|[<-|[<-|[]]]];
    try reflexivity; simpl in Heq; discriminate.
Defined.

End GenerateWeeklyMetricsFacts.

(* ================================================================= *)
(** ** Keys as strings: [split] and [join] on the bar *)

Module SplitFacts.
Import Py.
Import TextViews.
Open Scope string_scope.

Lemma append_assoc (a b c : string) : (a ++ b) ++ c = a ++ b ++ c.
Proof. induction a as [|x a IH]; simpl; [reflexivity | now rewrite IH]. Qed.

Lemma split_nonempty (s : string) : BenchmarkV6.split "|" s <> [].
Proof.
  induction s as [|c s IH]; simpl; [discriminate|].
  destruct (Ascii.eqb c "|"); [discriminate|].
  destruct (BenchmarkV6.split "|" s); discriminate.
Qed.

Lemma join_cons (x : string) (l : list string) :
  l <> [] -> join "|" (x :: l) = x ++ "|" ++ join "|" l.
Proof. destruct l; [contradiction | reflexivity]. Qed.

(** Joining what [split] gave restores the string. *)
Lemma join_split (s : string) : join "|" (BenchmarkV6.split "|" s) = s.
Proof.
  induction s as [|c s IH]; simpl; [reflexivity|].
  destruct (Ascii.eqb_spec c "|") as [->|Hc].
  - rewrite join_cons by apply split_nonempty. simpl. now rewrite IH.
  - destruct (BenchmarkV6.split "|" s) as [|h t] eqn:E; [now apply split_nonempty in E|].
    destruct t as [|h' t].
    + simpl in *. now rewrite IH.
    + rewrite join_cons by discriminate. rewrite join_cons in IH by discriminate.
      rewrite <- IH. reflexivity.
Qed.

Lemma no_bar_cons (c : ascii) (s : string) :
  no_bar (String c s) <-> c <> "|"%char /\ no_bar s.
Proof.
  unfold no_bar, str_contains. cbn [existsb list_ascii_of_string].
  rewrite orb_false_iff, Ascii.eqb_neq.
  split; intros [H1 H2]; split; auto.
Qed.

Lemma split_app (a rest : string) :
  no_bar a -> BenchmarkV6.split "|" (a ++ "|" ++ rest) = a :: BenchmarkV6.split "|" rest.
Proof.
  induction a as [|c a IH]; intros Ha; simpl.
  - reflexivity.
  - apply no_bar_cons in Ha. destruct Ha as [Hc Ha].
    destruct (Ascii.eqb_spec c "|") as [->|_]; [contradiction|].
    change ((a ++ String "|" rest)) with (a ++ "|" ++ rest).
    now rewrite (IH Ha).
Qed.

Lemma no_bar_digits (s : string) :
  forallb digit_or_minus (list_ascii_of_string s) = true -> no_bar s.
Proof.
  induction s as [|c s IH]; simpl; intros H; [reflexivity|].
  apply andb_true_iff in H. destruct H as [Hc Hs].
  apply no_bar_cons. split; [|now apply IH].
  intros ->. discriminate.
Qed.

Lemma str_int_no_bar (z : Z) : no_bar (str_int z).
Proof. apply no_bar_digits, StrIntFacts.str_int_chars. Qed.

End SplitFacts.

(* ================================================================= *)
(** ** invoice_benchmark_code_v6_updated.py: the abbreviated key *)

Module AbbreviatedKeyFacts.
Import Py Pandas PandasFacts BenchmarkV6 SplitFacts Samples.
Import TextViews.
Open Scope string_scope.

Lemma abbreviate_key (year week rest : string) :
  no_bar year -> no_bar week ->
  Abbreviate_Benchmark_Key (Str (year ++ "|" ++ week ++ "|" ++ rest)) = Some rest.
Proof.
  intros Hy Hw. unfold Abbreviate_Benchmark_Key.
  rewrite (split_app _ Hy), (split_app _ Hw). simpl skipn.
  now rewrite join_split.
Qed.

Lemma benchmark_key_shape (df : list Clean) (r : Clean) (cpt : string) :
  Invoice_CPT_Set df r = Str cpt ->
  Benchmark_Key df r =
    Str (str_int (Year r) ++ "|" ++ str_int (Week r) ++ "|"
         ++ join "|" [Payer r; Group_EM r; Group_EM2 r; cpt]).
Proof.
  intros H. unfold Benchmark_Key. rewrite H. cbn [fold_left cell_concat join String.concat].
  f_equal. now rewrite !append_assoc.
Qed.

Lemma Forall2_In_r (A B : Type) (P : A -> B -> Prop) (l : list A) (l' : list B) (y : B) :
  Forall2 P l l' -> In y l' -> exists x, In x l /\ P x y.
Proof.
  induction 1 as [|a b l l' Hab _ IH]; intros Hy; [contradiction|].
  destruct Hy as [<-|Hy].
  - exists a. split; [now left | assumption].
  - destruct (IH Hy) as (x & Hx & Hp). exists x. split; [now right | assumption].
Qed.

(** X9: the abbreviated key of every row of the index is its payer, group,
    secondary group and CPT set joined by bars, whatever characters the
    payer and the groups hold: dropping the first two bar-separated
    segments of the benchmark key removes exactly the year and the week,
    and the benchmark key is year, week and abbreviated key joined by
    bars. *)
Theorem abbreviated_key_drops_year_week (raw : list Raw) (out : list TaggedRow) :
  invoice_level_index raw = Some out ->
  Forall (fun t =>
            let k := keyed t in
            let r := base k in
            exists cpt,
              row_Invoice_CPT_Set k = Str cpt /\
              row_Abbreviate_Benchmark_Key k
                = join "|" [Payer r; Group_EM r; Group_EM2 r; cpt] /\
              row_Benchmark_Key k
                = Str (join "|" [str_int (Year r); str_int (Week r);
                                 row_Abbreviate_Benchmark_Key k]))
         out.
Proof.
  unfold invoice_level_index. intros H.
  destruct (step2 (step1B (step1 raw))) as [ks|] eqn:E; [|discriminate].
  injection H as <-. unfold step2 in E. apply traverse_Some in E.
  apply Forall_forall. intros t Ht. unfold step5 in Ht.
  apply in_map_iff in Ht. destruct Ht as (k & <- & Hk). cbn [keyed tag_row].
  destruct (Forall2_In_r k E Hk) as (r & _ & Hadd).
  destruct (ForwardFillFacts.v6_add_keys_Some _ _ Hadd) as (_ & Hne & _).
  unfold add_keys in Hadd.
  set (df := step1B (step1 raw)) in *.
  assert (Hcpt : exists cpt, Invoice_CPT_Set df r = Str cpt).
  { unfold Invoice_CPT_Set. destruct (Invoice_Number r); [contradiction | eauto]. }
  destruct Hcpt as (cpt & Hcpt).
  rewrite (benchmark_key_shape _ _ Hcpt) in Hadd.
  rewrite abbreviate_key in Hadd by apply str_int_no_bar.
  injection Hadd as <-. cbn [base row_Invoice_CPT_Set row_Abbreviate_Benchmark_Key
                              row_Benchmark_Key].
  exists cpt. split; [assumption|]. split; reflexivity.
Qed.

Lemma abbreviated_key_drops_year_week_witness :
  exists out,
    invoice_level_index payments_around_100 = Some out /\
    Forall (fun t =>
              let k := keyed t in
              let r := base k in
              exists cpt,
                row_Invoice_CPT_Set k = Str cpt /\
                row_Abbreviate_Benchmark_Key k
                  = join "|" [Payer r; Group_EM r; Group_EM2 r; cpt] /\
                row_Benchmark_Key k
                  = Str (join "|" [str_int (Year r); str_int (Week r);
                                   row_Abbreviate_Benchmark_Key k]))
           out.
Proof.
  eexists. split; [reflexivity|].
  apply (abbreviated_key_drops_year_week payments_around_100). reflexivity.
Defined.

End AbbreviatedKeyFacts.

(* ================================================================= *)
(** ** invoice_benchmark_code_v10_updated.py: what a key identifies *)

Module KeyIdentityFacts.
Import Py Pandas PandasFacts BenchmarkV10 BenchmarkV10Facts SplitFacts MoreSamples.
Import TextViews.
Open Scope string_scope.

Lemma join4_inj (a b c d a' b' c' d' : string) :
  no_bar a -> no_bar b -> no_bar c -> no_bar a' -> no_bar b' -> no_bar c' ->
  join "|" [a; b; c; d] = join "|" [a'; b'; c'; d'] ->
  a = a' /\ b = b' /\ c = c' /\ d = d'.
Proof.
  intros Ha Hb Hc Ha' Hb' Hc' H.
  apply (f_equal (BenchmarkV6.split "|")) in H.
  cbn [join String.concat] in H.
  rewrite !split_app in H by assumption.
  injection H as -> -> -> H. repeat split.
  rewrite <- (join_split d), <- (join_split d'). now rewrite H.
Qed.

(** X10: when payer, group and secondary group hold no bar, the benchmark key
    identifies them and the CPT list: two rows with the same
    [Benchmark_Key] then agree on all four, so grouping by the key is
    grouping by the four fields. A bar inside a field breaks this: payer
    "A|B" with group "C" and payer "A" with group "B|C" share a key. *)
Theorem benchmark_key_identifies_fields :
  (forall (df : list (Row string)) (out : list KeyedRow) (kr1 kr2 : KeyedRow),
     step3 df = Some out -> In kr1 out -> In kr2 out ->
     no_bar (Payer (base kr1)) -> no_bar (Group_EM (base kr1)) ->
     no_bar (Group_EM2 (base kr1)) ->
     no_bar (Payer (base kr2)) -> no_bar (Group_EM (base kr2)) ->
     no_bar (Group_EM2 (base kr2)) ->
     Benchmark_Key kr1 = Benchmark_Key kr2 ->
     Payer (base kr1) = Payer (base kr2) /\
     Group_EM (base kr1) = Group_EM (base kr2) /\
     Group_EM2 (base kr1) = Group_EM2 (base kr2) /\
     row_CPT_List_Str kr1 = row_CPT_List_Str kr2) /\
  (exists kr1 kr2,
     step3 bar_in_payer = Some [kr1; kr2] /\
     Payer (base kr1) <> Payer (base kr2) /\
     Benchmark_Key kr1 = Benchmark_Key kr2).
Proof.
  split.
  - intros df out kr1 kr2 Hout H1 H2 Ha Hb Hc Ha' Hb' Hc' Hk.
    rewrite step3_total in Hout. injection Hout as <-.
    apply in_map_iff in H1, H2.
    destruct H1 as (r1 & <- & _), H2 as (r2 & <- & _).
    cbn [base keyed_row row_CPT_List_Str Benchmark_Key key_parts] in *.
    now apply join4_inj.
  - eexists; eexists. split; [reflexivity|]. split; [discriminate | reflexivity].
Qed.

Lemma benchmark_key_identifies_fields_witness :
  exists kr1 kr2,
    step3 Samples.two_row_invoice = Some [kr1; kr2] /\
    Payer (base kr1) = Payer (base kr2) /\
    Group_EM (base kr1) = Group_EM (base kr2) /\
    Group_EM2 (base kr1) = Group_EM2 (base kr2) /\
    row_CPT_List_Str kr1 = row_CPT_List_Str kr2.
Proof.
  eexists; eexists. split; [reflexivity|].
  apply (proj1 benchmark_key_identifies_fields Samples.two_row_invoice
               _ _ _ eq_refl); try reflexivity.
  - left. reflexivity.
  - right. left. reflexivity.
Defined.

End KeyIdentityFacts.

(* ================================================================= *)
(** ** invoice_benchmark_code_v10_updated.py: the benchmark of a key *)

Module BenchmarkMeanFacts.
Import Float FloatFacts Pandas PandasFacts GroupingFacts BenchmarkV10 Samples.
Import ColumnViews BenchmarkV10Views.
Open Scope string_scope.

(** The merge of Step 5 finds the benchmark of every row of the table. *)
Lemma benchmark_lookup (df : list KeyedRow) (r : KeyedRow) :
  In r df ->
  Benchmark_Payment_Amount_within_invoice (cpt_benchmark_df df) r
  = mean (payments (key_rows df (Benchmark_Key r))).
Proof.
  intros Hr. unfold Benchmark_Payment_Amount_within_invoice.
  set (p := fun e : string * float => String.eqb (fst e) (Benchmark_Key r)).
  destruct (@find_first _ p (cpt_benchmark_df df)) as (e & -> & He & Hp).
  - exists (Benchmark_Key r, mean (payments (key_rows df (Benchmark_Key r)))).
    split; [|unfold p; simpl; apply String.eqb_refl].
    unfold cpt_benchmark_df. apply in_map_iff.
    exists (Benchmark_Key r, key_rows df (Benchmark_Key r)). split; [reflexivity|].
    apply (groupby_In String.eqb Py.str_leb Benchmark_Key String.eqb_eq).
    simpl. split; [eauto | reflexivity].
  - unfold cpt_benchmark_df in He. apply in_map_iff in He.
    destruct He as (g & <- & Hg).
    apply (groupby_In String.eqb Py.str_leb Benchmark_Key String.eqb_eq) in Hg.
    destruct Hg as (_ & Hrows). unfold p in Hp. simpl in Hp.
    apply String.eqb_eq in Hp. simpl. now rewrite Hrows, Hp.
Qed.

Lemma inject_nat_succ (n : nat) :
  inject_Z (Z.of_nat (S n)) == inject_Z (Z.of_nat n) + 1.
Proof. rewrite Nat2Z.inj_succ. unfold Z.succ. now rewrite inject_Z_plus. Qed.

Lemma inject_nat_nonzero (n : nat) : n <> 0%nat -> ~ inject_Z (Z.of_nat n) == 0.
Proof. intros Hn E. unfold Qeq in E. simpl in E. lia. Qed.

Lemma Qsum_shift (m : Q) (ps : list Q) :
  Qsum (map (fun p => p + - m) ps)
  == Qsum ps - inject_Z (Z.of_nat (List.length ps)) * m.
Proof.
  induction ps as [|p ps IH].
  - simpl. ring.
  - cbn [map Qsum fold_right List.length]. fold (Qsum (map (fun p => p + - m) ps)).
    fold (Qsum ps). rewrite IH, inject_nat_succ. ring.
Qed.

(** The mean of a non-empty column of finite values. *)
Lemma mean_Fin (ps : list Q) :
  ps <> [] ->
  exists m, mean (map Fin ps) = Fin m /\
            m * inject_Z (Z.of_nat (List.length ps)) == Qsum ps.
Proof.
  intros Hne. unfold mean. rewrite dropna_Fin.
  destruct ps as [|p ps]; [contradiction|].
  cbn [map]. rewrite <- (map_cons Fin p ps).
  set (l := p :: ps). unfold fsum. rewrite fold_fadd_Fin, length_map.
  unfold of_nat, of_Z.
  assert (Hn : ~ inject_Z (Z.of_nat (List.length l)) == 0)
    by (apply inject_nat_nonzero; discriminate).
  rewrite (fdiv_Fin _ Hn). eexists. split; [reflexivity|].
  rewrite fold_Qplus_Qsum. now field.
Qed.

Lemma diffs_Fin (m : Q) (rows : list KeyedRow) (ps : list Q) :
  payments rows = map Fin ps ->
  map (fun r => (Payment_Amount (base r) - Fin m)%fl) rows
  = map Fin (map (fun p => p + - m) ps).
Proof.
  revert ps. induction rows as [|r rows IH]; intros [|p ps] H;
    simpl in *; try discriminate; [reflexivity|].
  injection H as Hp Hrest. rewrite Hp. simpl. f_equal. now apply IH.
Qed.

(** X11: Steps 5 and 6: the benchmark merged onto a row is the mean payment of
    the rows that share its benchmark key, the row included, and when
    those payments are all finite the payment differences of the key
    cancel: they sum to 0. *)
Theorem payment_differences_cancel (df : list KeyedRow) (v : VarianceRow) (ps : list Q) :
  In v (step6 df) ->
  payments (key_rows df (Benchmark_Key (keyed v))) = map Fin ps ->
  row_Benchmark_Payment v = mean (map Fin ps) /\
  In (keyed v) (key_rows df (Benchmark_Key (keyed v))) /\
  feq (sum (map row_Payment_Diff
                (filter (fun v' => String.eqb (Benchmark_Key (keyed v'))
                                              (Benchmark_Key (keyed v)))
                        (step6 df))))
      (Fin 0).
Proof.
  intros Hv Hps. unfold step6 in *. apply in_map_iff in Hv.
  destruct Hv as (r & <- & Hr). cbn [keyed row_Benchmark_Payment].
  cbn [keyed] in Hps. set (k := Benchmark_Key r) in *.
  assert (Hin : In r (key_rows df k))
    by (apply (group_rows_In String.eqb Benchmark_Key String.eqb_eq); tauto).
  split; [now rewrite benchmark_lookup, <- Hps|]. split; [assumption|].
  rewrite GenerateWeeklyMetricsFacts.filter_map_comm. cbn [keyed].
  change (filter (fun x : KeyedRow => String.eqb (Benchmark_Key x) k) df)
    with (key_rows df k).
  rewrite map_map. cbn [row_Payment_Diff].
  assert (Hne : ps <> []).
  { intros ->. unfold payments in Hps. destruct (key_rows df k); [contradiction | discriminate]. }
  destruct (mean_Fin Hne) as (m & Hm & Em).
  assert (Hdiff : map (fun r' => Invoice_Payment_Diff_vs_Benchmark
                                   (Payment_Amount (base r'))
                                   (Benchmark_Payment_Amount_within_invoice
                                      (cpt_benchmark_df df) r'))
                      (key_rows df k)
                  = map Fin (map (fun p => p + - m) ps)).
  { rewrite <- (@diffs_Fin m (key_rows df k) ps Hps). apply map_ext_in. intros r' Hr'.
    apply (group_rows_In String.eqb Benchmark_Key String.eqb_eq) in Hr'.
    destruct Hr' as [Hr' Hk]. rewrite (benchmark_lookup _ _ Hr'), Hk.
    fold k. rewrite Hps, Hm. reflexivity. }
  rewrite Hdiff. destruct (sum_Fin (map (fun p => p + - m) ps)) as (s & -> & Es).
  simpl. rewrite Es, Qsum_shift, <- Em. ring.
Qed.

Lemma payment_differences_cancel_witness :
  exists out v,
    step3 two_row_invoice = Some out /\
    In v (step6 out) /\
    payments (key_rows out (Benchmark_Key (keyed v))) = map Fin [80; 120] /\
    feq (sum (map row_Payment_Diff
                  (filter (fun v' => String.eqb (Benchmark_Key (keyed v'))
                                                (Benchmark_Key (keyed v)))
                          (step6 out))))
        (Fin 0).
Proof.
  eexists; eexists. split; [reflexivity|].
  assert (Hin : In (hd (mkVarianceRow (keyed_row [] (mkRow "" "" "" "" "" NaN)) NaN NaN NaN)
                       (step6 (map (keyed_row two_row_invoice) two_row_invoice)))
                   (step6 (map (keyed_row two_row_invoice) two_row_invoice)))
    by (left; reflexivity).
  split; [exact Hin|].
  assert (Hps : payments (key_rows (map (keyed_row two_row_invoice) two_row_invoice)
                          (Benchmark_Key (keyed (hd (mkVarianceRow (keyed_row [] (mkRow "" "" "" "" "" NaN)) NaN NaN NaN)
                       (step6 (map (keyed_row two_row_invoice) two_row_invoice))))))
                = map Fin [80; 120]) by reflexivity.
  split; [exact Hps|].
  exact (proj2 (proj2 (payment_differences_cancel _ _ _ Hin Hps))).
Defined.

End BenchmarkMeanFacts.

(* ================================================================= *)
(** ** revenue_performance_model.py: the label in dollars, and the
       unguarded percent variance of Step 3 *)

Module PerformanceLabelFacts.
Import Float FloatFacts RevenuePerformance RevenuePerformanceFacts GroupingFacts.
Import ColumnViews.
Open Scope string_scope.









End PerformanceLabelFacts.

(* ================================================================= *)
(** ** CPT tracing code.py: the dollar columns and the rebuilt rate *)

Module CptRollupFacts.
Import Float FloatFacts Pandas PandasFacts GroupingFacts CptTracing CptTracingFacts.
Import ColumnViews CptTracingViews.
Import MoreSamples.
Open Scope string_scope.

(** Lines 61-69 rewrite the two rate columns only, row by row. *)
Lemma prepare_map (df : list Row) :
  exists f : Row -> Row,
    prepare df = map f df /\
    forall r,
      Payer (f r) = Payer r /\ Benchmark_Key (f r) = Benchmark_Key r /\
      Visit_Count (f r) = Visit_Count r /\ Payment_Amount (f r) = Payment_Amount r /\
      (isna_all (map Actual_Rate_per_Visit df) = true ->
       Actual_Rate_per_Visit (f r) = payment_per_visit r).
Proof.
  unfold prepare, rebuild_expected, rebuild_actual.
  destruct (isna_all (map Actual_Rate_per_Visit df)) eqn:Ea;
    match goal with
    | |- context [if ?c then _ else _] => destruct c
    end.
  - rewrite map_map. eexists. split; [reflexivity|].
    intros r. simpl. repeat split; reflexivity.
  - eexists. split; [reflexivity|].
    intros r. simpl. repeat split; reflexivity.
  - eexists. split; [reflexivity|].
    intros r. simpl. repeat split; try reflexivity. discriminate.
  - exists (fun r => r). split; [now rewrite map_id|].
    intros r. repeat split; try reflexivity. discriminate.
Qed.

Section Groups.
Variable K : Type.
Variable eqb : K -> K -> bool.
Variable leb : K -> K -> bool.
Variable key : Row -> K.
Hypothesis eqb_eq : forall a b, eqb a b = true <-> a = b.
Hypothesis key_columns :
  forall r r', Payer r = Payer r' -> Benchmark_Key r = Benchmark_Key r' -> key r = key r'.

(** The rows of a group after lines 61-69 are the rows of the key in the
    file, in the same order. *)
Lemma prepared_group (df : list Row) (k : K) :
  exists f : Row -> Row,
    group_rows eqb key (prepare df) k = map f (group_rows eqb key df k) /\
    forall r,
      Visit_Count (f r) = Visit_Count r /\ Payment_Amount (f r) = Payment_Amount r /\
      (isna_all (map Actual_Rate_per_Visit df) = true ->
       Actual_Rate_per_Visit (f r) = payment_per_visit r).
Proof using key_columns.
  destruct (prepare_map df) as (f & -> & Hf). exists f. split.
  - unfold group_rows. rewrite GenerateWeeklyMetricsFacts.filter_map_comm.
    f_equal. apply filter_ext. intros r.
    destruct (Hf r) as (Hp & Hk & _). now rewrite (key_columns _ _ Hp Hk).
  - intros r. destruct (Hf r) as (_ & _ & Hv & Hp & Ha). auto.
Qed.
End Groups.

(** A column of finite values, as the list of the values. *)
Lemma finite_column (A : Type) (f : A -> float) (rows : list A) :
  (forall r, In r rows -> exists q, f r = Fin q) ->
  exists qs, map f rows = map Fin qs.
Proof.
  induction rows as [|r rows IH]; intros H.
  - exists []. reflexivity.
  - destruct (H r (or_introl eq_refl)) as (q & Hq).
    destruct IH as (qs & Hqs); [intros r' Hr'; apply H; now right|].
    exists (q :: qs). simpl. now rewrite Hq, Hqs.
Qed.

(** The dollar variance of a group whose payments and expected dollars are
    all present is the difference of the two totals. *)
Lemma dollar_variance_rows (rows : list Row) :
  (forall r, In r rows ->
     exists p x, Payment_Amount r = Fin p /\ Expected_Payment_Recalc r = Fin x) ->
  feq (sum (map Revenue_Variance_Recalc rows))
      (sum (map Payment_Amount rows) - sum (map Expected_Payment_Recalc rows))%fl.
Proof.
  intros H.
  assert (Hcols : exists ps xs ds,
             map Payment_Amount rows = map Fin ps /\
             map Expected_Payment_Recalc rows = map Fin xs /\
             map Revenue_Variance_Recalc rows = map Fin ds /\
             Qsum ds == Qsum ps - Qsum xs).
  { induction rows as [|r rows IH].
    - exists [], [], []. repeat (split; [reflexivity|]). simpl. ring.
    - destruct (H r (or_introl eq_refl)) as (p & x & Hp & Hx).
      destruct IH as (ps & xs & ds & Hps & Hxs & Hds & E);
        [intros r' Hr'; apply H; now right|].
      exists (p :: ps), (x :: xs), ((p + - x) :: ds). simpl.
      rewrite Hps, Hxs, Hds, Hp, E. unfold Revenue_Variance_Recalc.
      rewrite Hp, Hx. simpl. repeat (split; [reflexivity|]). ring. }
  destruct Hcols as (ps & xs & ds & -> & -> & -> & E).
  destruct (sum_Fin ps) as (sp & -> & Ep).
  destruct (sum_Fin xs) as (sx & -> & Ex).
  destruct (sum_Fin ds) as (sd & -> & Ed).
  simpl. rewrite Ed, E, Ep, Ex. reflexivity.
Qed.

(** X14: in both roll-ups, a group in which every row has a payment and an
    expected dollar amount (expected rate x visits) has
    Dollar_Variance_vs_85EM = Total_Payment_Amount -
    Total_Expected_Payment_vs_85EM. Each of the three columns skips its
    own missing entries, so the identity is lost when a row lacks its
    expected rate: payments 100 and 200 against expected rates 100 and
    missing give totals 300 and 100 and a dollar variance of 0. *)
Theorem dollar_variance_is_payment_minus_expected :
  (forall (df : list Row) (g : Rollup cell),
     In g (by_key df) ->
     (forall r, In r (group_rows cell_eqb Benchmark_Key (prepare df) (group_key g)) ->
        exists p x, Payment_Amount r = Fin p /\ Expected_Payment_Recalc r = Fin x) ->
     feq (Dollar_Variance_vs_85EM g)
         (Total_Payment_Amount g - Total_Expected_Payment_vs_85EM g)%fl) /\
  (forall (df : list Row) (g : Rollup (cell * cell)),
     In g (by_payer_key df) ->
     (forall r, In r (group_rows pair_eqb (fun r => (Payer r, Benchmark_Key r))
                                 (prepare df) (group_key g)) ->
        exists p x, Payment_Amount r = Fin p /\ Expected_Payment_Recalc r = Fin x) ->
     feq (Dollar_Variance_vs_85EM g)
         (Total_Payment_Amount g - Total_Expected_Payment_vs_85EM g)%fl) /\
  (exists g, by_key missing_expected_rate = [g] /\
     feq (Total_Payment_Amount g) (Fin 300) /\
     feq (Total_Expected_Payment_vs_85EM g) (Fin 100) /\
     feq (Dollar_Variance_vs_85EM g) (Fin 0)).
Proof.
  split; [|split].
  - intros df g Hg H. rewrite (by_key_In _ _ Hg). simpl.
    now apply dollar_variance_rows.
  - intros df g Hg H.
    rewrite (rollup_In pair_eqb pair_leb (fun r => (Payer r, Benchmark_Key r))
                       pair_eqb_eq _ _ Hg).
    simpl. now apply dollar_variance_rows.
  - eexists. split; [reflexivity|]. repeat split; reflexivity.
Qed.

Lemma dollar_variance_is_payment_minus_expected_witness :
  feq (Dollar_Variance_vs_85EM (rollup_group (Str "K") Samples.unequal_visits))
      (Total_Payment_Amount (rollup_group (Str "K") Samples.unequal_visits)
       - Total_Expected_Payment_vs_85EM (rollup_group (Str "K") Samples.unequal_visits))%fl.
Proof.
  apply (proj1 dollar_variance_is_payment_minus_expected Samples.unequal_visits).
  - left. reflexivity.
  - intros r [<-|[<-|[]]]; eexists; eexists; split; reflexivity.
Defined.

(** The products rate x visits of rebuilt rates add up to the payments. *)
Lemma rebuilt_sums (rows : list Row) :
  (forall r, In r rows ->
     exists p v, Payment_Amount r = Fin p /\ Visit_Count r = Fin v /\ ~ v == 0 /\
                 Actual_Rate_per_Visit r = payment_per_visit r) ->
  exists ps vs ws,
    map Payment_Amount rows = map Fin ps /\
    map Visit_Count rows = map Fin vs /\
    map (fun r => (Actual_Rate_per_Visit r * Visit_Count r)%fl) rows = map Fin ws /\
    Qsum ws == Qsum ps.
Proof.
  induction rows as [|r rows IH]; intros H.
  - exists [], [], []. repeat (split; [reflexivity|]). reflexivity.
  - destruct (H r (or_introl eq_refl)) as (p & v & Hp & Hv & Hne & Ha).
    destruct IH as (ps & vs & ws & Hps & Hvs & Hws & E);
      [intros r' Hr'; apply H; now right|].
    exists (p :: ps), (v :: vs), (p / v * v :: ws). simpl.
    rewrite Hps, Hvs, Hws, Ha. unfold payment_per_visit, np_where.
    rewrite Hp, Hv. simpl. rewrite (Qeq_bool_false Hne). simpl.
    repeat (split; [reflexivity|]). rewrite E. field. exact Hne.
Qed.

Lemma rebuilt_rate_rows (rows : list Row) :
  (forall r, In r rows ->
     exists p v, Payment_Amount r = Fin p /\ Visit_Count r = Fin v /\ ~ v == 0 /\
                 Actual_Rate_per_Visit r = payment_per_visit r) ->
  ~ feq (total_visits rows) (Fin 0) ->
  feq (Weighted_Actual_Rate_per_Visit (rollup_group tt rows))
      (sum (map Payment_Amount rows) / total_visits rows)%fl.
Proof.
  intros H. destruct (rebuilt_sums rows H) as (ps & vs & ws & Hps & Hvs & Hws & E).
  unfold rollup_group, w_actual, total_visits, nansum. cbn [Weighted_Actual_Rate_per_Visit].
  fold (sum (map (fun r => (Actual_Rate_per_Visit r * Visit_Count r)%fl) rows)).
  rewrite Hps, Hvs, Hws.
  destruct (sum_Fin ps) as (sp & -> & Ep).
  destruct (sum_Fin vs) as (sv & -> & Ev).
  destruct (sum_Fin ws) as (sw & -> & Ew).
  intros Hz. simpl in Hz. unfold np_where. simpl.
  rewrite (Qeq_bool_false Hz). simpl. now rewrite Ew, E, Ep.
Qed.

(** X15: when the file has no actual rate (the column is empty, or absent), the
    rate is rebuilt as payment / visits, and then in every group of the
    roll-up by key whose rows all have a payment and a non-zero visit
    count, and whose visits do not add up to 0, the weighted actual rate
    per visit is Total_Payment_Amount / Total_Visits. *)
Theorem rebuilt_rate_is_payment_per_visit (df : list Row) (g : Rollup cell) :
  isna_all (map Actual_Rate_per_Visit df) = true ->
  In g (by_key df) ->
  (forall r, In r df -> Benchmark_Key r = group_key g ->
     exists p v, Payment_Amount r = Fin p /\ Visit_Count r = Fin v /\ ~ v == 0) ->
  ~ feq (Total_Visits g) (Fin 0) ->
  feq (Weighted_Actual_Rate_per_Visit g) (Total_Payment_Amount g / Total_Visits g)%fl.
Proof.
  intros Hna Hg Hrows. rewrite (by_key_In _ _ Hg).
  set (k := group_key g) in *.
  destruct (prepared_group cell_eqb Benchmark_Key (fun r r' _ H => H) df k)
    as (f & Hf & Hcols).
  cbn [Total_Visits Total_Payment_Amount rollup_group].
  intros Hz.
  apply (rebuilt_rate_rows (group_rows cell_eqb Benchmark_Key (prepare df) k)); [|exact Hz].
  rewrite Hf. intros r' Hr'. apply in_map_iff in Hr'. destruct Hr' as (r & <- & Hr).
  apply (group_rows_In cell_eqb Benchmark_Key cell_eqb_eq) in Hr.
  destruct Hr as [Hin Hk]. destruct (Hrows r Hin Hk) as (p & v & Hp & Hv & Hne).
  destruct (Hcols r) as (Ev & Ep & Ea).
  exists p, v. rewrite Ev, Ep, (Ea Hna). unfold payment_per_visit.
  rewrite Ev, Ep. repeat split; assumption.
Qed.

Lemma rebuilt_rate_is_payment_per_visit_witness :
  exists g, by_key no_rate_columns = [g] /\
    feq (Weighted_Actual_Rate_per_Visit g) (Total_Payment_Amount g / Total_Visits g)%fl /\
    feq (Weighted_Actual_Rate_per_Visit g) (Fin 130).
Proof.
  eexists. split; [reflexivity|]. split; [|reflexivity].
  apply (rebuilt_rate_is_payment_per_visit no_rate_columns).
  - reflexivity.
  - left. reflexivity.
  - intros r [<-|[<-|[]]] _; eexists; eexists; repeat split; discriminate.
  - simpl. discriminate.
Defined.

End CptRollupFacts.

(* ================================================================= *)
(** ** source_data_processor_v3.py: the metadata columns after the fill *)

Module MetadataFillFacts.
Import Pandas PandasFacts SourceProcessorV3 ForwardFillFacts MoreSamples.
Import SourceProcessorV3Views.
Open Scope string_scope.

Lemma map_fst_combine (A B : Type) (a : list A) (b : list B) :
  List.length a = List.length b -> map fst (combine a b) = a.
Proof.
  revert b. induction a as [|x a IH]; intros [|y b] H; simpl in *;
    try discriminate; [reflexivity|]. f_equal. apply IH. now injection H.
Qed.

Lemma map_snd_combine (A B : Type) (a : list A) (b : list B) :
  List.length a = List.length b -> map snd (combine a b) = b.
Proof.
  revert b. induction a as [|x a IH]; intros [|y b] H; simpl in *;
    try discriminate; [reflexivity|]. f_equal. apply IH. now injection H.
Qed.

Lemma filled_text_length (col : list cell) :
  List.length (filled_text col) = List.length col.
Proof. unfold filled_text. now rewrite length_map, ffill_length. Qed.

Lemma fill_metadata_columns (df : list Row) :
  map metadata (fill_metadata df)
  = zip5 (filled_text (map Year df)) (filled_text (map Week df))
         (filled_text (map Payer df)) (filled_text (map Group_EM df))
         (filled_text (map Group_EM2 df)).
Proof.
  unfold fill_metadata. fold (filled_text (map Year df)) (filled_text (map Week df))
    (filled_text (map Payer df)) (filled_text (map Group_EM df))
    (filled_text (map Group_EM2 df)).
  apply combine_map_second.
  - intros r [[[[y w] p] g] g2]. reflexivity.
  - unfold zip5. rewrite !length_combine, !filled_text_length, !length_map. lia.
Qed.

Lemma fill_down_invoice_metadata (df : list Row) :
  map metadata (fill_down_invoice df) = map metadata df.
Proof.
  unfold fill_down_invoice. apply combine_map_first.
  - reflexivity.
  - now rewrite ffill_length, length_map.
Qed.

Lemma normalize_columns (df : list Row) :
  map Payer (normalize df) = filled_text (map Payer df) /\
  map Group_EM (normalize df) = filled_text (map Group_EM df) /\
  map Group_EM2 (normalize df) = filled_text (map Group_EM2 df).
Proof.
  assert (H : map metadata (normalize df)
              = zip5 (filled_text (map Year df)) (filled_text (map Week df))
                     (filled_text (map Payer df)) (filled_text (map Group_EM df))
                     (filled_text (map Group_EM2 df))).
  { unfold normalize. now rewrite fill_down_invoice_metadata, fill_metadata_columns. }
  assert (Hp : forall f : Row -> cell,
             forall g : cell * cell * cell * cell * cell -> cell,
               (forall r, f r = g (metadata r)) ->
               map f (normalize df) = map g (map metadata (normalize df))).
  { intros f g Hfg. rewrite map_map. apply map_ext. exact Hfg. }
  unfold zip5 in H.
  split; [|split].
  - rewrite (Hp Payer (fun m => snd (fst (fst m)))) by reflexivity. rewrite H.
    rewrite <- (map_map (fun m => fst (fst m)) snd), <- (map_map fst fst).
    rewrite !map_fst_combine, map_snd_combine; try reflexivity;
      rewrite ?length_combine, ?filled_text_length, ?length_map; lia.
  - rewrite (Hp Group_EM (fun m => snd (fst m))) by reflexivity. rewrite H.
    rewrite <- (map_map fst snd).
    rewrite !map_fst_combine, map_snd_combine; try reflexivity;
      rewrite ?length_combine, ?filled_text_length, ?length_map; lia.
  - rewrite (Hp Group_EM2 snd) by reflexivity. rewrite H.
    rewrite map_snd_combine; try reflexivity;
      rewrite ?length_combine, ?filled_text_length, ?length_map; lia.
Qed.

Lemma filled_text_nth (col : list cell) (i : nat) :
  (i < List.length col)%nat ->
  nth i (filled_text col) Missing
  = Str (astype_str (last_value Missing (firstn (S i) col))).
Proof.
  intros Hi. unfold filled_text.
  rewrite (nth_indep _ Missing (Str (astype_str Missing)))
    by now rewrite length_map, ffill_length.
  rewrite (map_nth (fun c => Str (astype_str c))). now rewrite ffill_nth.
Qed.

Lemma normalize_length (df : list Row) : List.length (normalize df) = List.length df.
Proof.
  rewrite <- (length_map Payer (normalize df)), (proj1 (normalize_columns df)).
  now rewrite filled_text_length, length_map.
Qed.

(** X16: lines 79-81 and 88: the processor keeps every row, and in the output
    the payer and the two E/M groups of a row are never missing: each is
    the text of the nearest value at or before the row, and the text
    "nan" when the cell and every cell above it are blank. *)
Theorem metadata_filled_as_text (df : list Row) (i : nat) :
  (i < List.length df)%nat ->
  let out := normalize df in
  let filled (col : Row -> cell) :=
    Str (astype_str (last_value Missing (firstn (S i) (map col df)))) in
  List.length out = List.length df /\
  nth i (map Payer out) Missing = filled Payer /\
  nth i (map Group_EM out) Missing = filled Group_EM /\
  nth i (map Group_EM2 out) Missing = filled Group_EM2 /\
  (forall col : Row -> cell,
     filled col = Str "nan" <->
     Forall blank (firstn (S i) (map col df)) \/
     last_value Missing (firstn (S i) (map col df)) = Str "nan").
Proof.
  intros Hi. cbv zeta.
  destruct (normalize_columns df) as (Hp & Hg & Hg2).
  split; [apply normalize_length|].
  rewrite Hp, Hg, Hg2, !filled_text_nth by now rewrite length_map.
  repeat (split; [reflexivity|]).
  intros col. set (l := firstn (S i) (map col df)).
  destruct (last_value Missing l) as [|s] eqn:E; simpl.
  - split; [|reflexivity]. intros _. left.
    apply last_value_Missing in E. apply E.
  - split.
    + intros [= ->]. now right.
    + intros [H|[= ->]]; [|reflexivity]. exfalso.
      assert (E' : last_value Missing l = Missing)
        by (apply last_value_Missing; split; [reflexivity | assumption]).
      congruence.
Qed.

Lemma metadata_filled_as_text_witness :
  map Payer (normalize leading_blank_payer) = [Str "nan"; Str "Aetna"; Str "Aetna"] /\
  nth 0 (map Payer (normalize leading_blank_payer)) Missing
  = Str (astype_str (last_value Missing (firstn 1 (map Payer leading_blank_payer)))).
Proof.
  split; [reflexivity|].
  refine (proj1 (proj2 (@metadata_filled_as_text leading_blank_payer 0%nat _))).
  simpl. lia.
Defined.

End MetadataFillFacts.

(* ================================================================= *)
(** ** invoice_benchmark_code_v6_updated.py: the low-payment tag against
       the mean of the key *)

Module TagFacts.
Import Float FloatFacts Pandas PandasFacts BenchmarkV6 BenchmarkV6Facts Samples.
Open Scope string_scope.

(** Some value of a non-empty list is at least the mean of the list. *)
Lemma above_mean (ps : list Q) :
  ps <> [] ->
  exists p, In p ps /\ Qsum ps <= inject_Z (Z.of_nat (List.length ps)) * p.
Proof.
  induction ps as [|p ps IH]; [contradiction|]. intros _.
  destruct ps as [|p' ps].
  - exists p. split; [now left|]. change (p + 0 <= 1 * p). lra.
  - destruct IH as (m & Hm & Hle); [discriminate|].
    set (l := p' :: ps) in *.
    assert (Hn : 0 <= inject_Z (Z.of_nat (List.length l))).
    { change 0 with (inject_Z 0). rewrite <- Zle_Qle. lia. }
    pose proof (BenchmarkMeanFacts.inject_nat_succ (List.length l)) as Hs.
    assert (Hgoal : forall x, m <= x -> p <= x ->
                      Qsum (p :: l) <= inject_Z (Z.of_nat (List.length (p :: l))) * x).
    { intros x Hmx Hpx. change (Qsum (p :: l)) with (p + Qsum l).
      change (List.length (p :: l)) with (S (List.length l)).
      revert Hs Hle Hn.
      generalize (inject_Z (Z.of_nat (S (List.length l))))
                 (inject_Z (Z.of_nat (List.length l))) (Qsum l).
      intros n' n s Hs Hle Hn. rewrite Hs. nra. }
    destruct (Qlt_le_dec m p) as [H|H].
    + exists p. split; [now left|]. apply Hgoal; lra.
    + exists m. split; [now right|]. apply Hgoal; lra.
Qed.

Lemma In_map_Fin (A : Type) (f : A -> float) (rows : list A) (ps : list Q) (p : Q) :
  map f rows = map Fin ps -> In p ps -> exists r, In r rows /\ f r = Fin p.
Proof.
  intros E Hp. apply (in_map Fin) in Hp. rewrite <- E in Hp.
  apply in_map_iff in Hp. destruct Hp as (r & Hr & Hin). now exists r.
Qed.

(** X17: Step 5 compares every payment with 0.9 times the mean payment of its
    key. In a key whose payments are all present and do not add up to a
    negative amount, at least one row is not tagged as a low payment. An
    invoice row that is alone in its key is its own benchmark: it is
    tagged exactly when its payment is negative. *)
Theorem low_payment_tag_spares_a_row :
  (forall (df : list KeyedRow) (k : cell) (ps : list Q),
     map (fun r => Payment_Amount (base r)) (group_rows cell_eqb row_Benchmark_Key df k)
       = map Fin ps ->
     ps <> [] -> 0 <= Qsum ps ->
     exists t, In t (step5 df) /\ row_Benchmark_Key (keyed t) = k /\
               row_Tag_Low_Payment t = false) /\
  (forall (df : list KeyedRow) (r : KeyedRow) (p : Q),
     group_rows cell_eqb row_Benchmark_Key df (row_Benchmark_Key r) = [r] ->
     Payment_Amount (base r) = Fin p ->
     (row_Tag_Low_Payment (tag_row df r) = true <-> p < 0)).
Proof.
  split.
  - intros df k ps Hps Hne Hsum.
    destruct (above_mean Hne) as (p & Hp & Hle).
    destruct (@In_map_Fin _ _ _ _ _ Hps Hp) as (r & Hr & Hrp).
    apply (group_rows_In cell_eqb row_Benchmark_Key cell_eqb_eq) in Hr.
    destruct Hr as [Hin Hk].
    exists (tag_row df r). split; [unfold step5; now apply in_map|].
    split; [exact Hk|]. cbn [tag_row row_Tag_Low_Payment].
    unfold benchmark_mean. rewrite Hk, Hps, Hrp.
    destruct (BenchmarkMeanFacts.mean_Fin Hne) as (m & -> & Em).
    destruct (Tag_Low_Payment (Fin p) (Fin m)) eqn:E; [|reflexivity].
    apply tag_low_payment_finite in E. exfalso.
    assert (Hn : 0 < inject_Z (Z.of_nat (List.length ps))).
    { change 0 with (inject_Z 0). rewrite <- Zlt_Qlt.
      destruct ps; [contradiction | simpl; lia]. }
    revert Hn Hle Em Hsum E.
    generalize (inject_Z (Z.of_nat (List.length ps))) (Qsum ps). intros n s. nra.
  - intros df r p Hrows Hp. cbn [tag_row row_Tag_Low_Payment].
    unfold benchmark_mean. rewrite Hrows. cbn [map]. rewrite Hp.
    change (mean [Fin p]) with (Fin ((0 + p) / inject_Z 1)).
    rewrite tag_low_payment_finite.
    assert (E : (0 + p) / inject_Z 1 == p) by (unfold inject_Z; field).
    rewrite E. split; intros H; lra.
Qed.

Lemma low_payment_tag_spares_a_row_witness :
  exists df,
    step2 (step1B (step1 payments_around_100)) = Some df /\
    exists t, In t (step5 df) /\
              row_Benchmark_Key (keyed t)
              = Str "2024|1|Aetna|New E/M Code|Layer2|['99213']" /\
              row_Tag_Low_Payment t = false.
Proof.
  eexists. split; [reflexivity|].
  apply (proj1 low_payment_tag_spares_a_row _ _ [80; 120]).
  - reflexivity.
  - discriminate.
  - unfold Qle. simpl. lia.
Defined.

End TagFacts.

(* ================================================================= *)
(** ** generate_weekly_metrics.py: the dollars of the aggregated table *)

Module AggDollarFacts.
Import Float FloatFacts Pandas PandasFacts GroupingFacts.
Import GenerateWeeklyMetrics GenerateWeeklyMetricsFacts MoreSamples.
Import ColumnViews GenerateWeeklyMetricsViews.
Open Scope string_scope.

(** Summing a column per benchmark key and then over the keys of a macro
    group gives the sum over the detail rows of the macro group. *)
Lemma macro_column_conserved (col : Row -> float) (df : list Row) (m : MacroKey) :
  Forall not_inf (map col (group_rows macro_eqb macro_key df m)) ->
  feq (sum (map (fun g => sum (map col (snd g))) (macro_groups df m)))
      (sum (map col (group_rows macro_eqb macro_key df m))).
Proof.
  intros H.
  assert (Hperm : Permutation
                    (List.concat (map (fun g => map col (snd g)) (macro_groups df m)))
                    (map col (group_rows macro_eqb macro_key df m))).
  { rewrite <- (map_map snd (map col)), <- concat_map.
    apply Permutation_map, macro_groups_partition. }
  assert (Hparts : Forall (Forall not_inf)
                          (map (fun g => map col (snd g)) (macro_groups df m))).
  { apply Forall_concat. apply (Permutation_Forall (Permutation_sym Hperm) H). }
  destruct (sum_of_sums Hparts) as (s & Hs & Es).
  destruct (sum_not_inf H) as (t & Ht & Et).
  rewrite map_map in Hs. rewrite Hs, Ht. simpl. rewrite Es, Et.
  now apply Qsum_perm, finite_values_perm.
Qed.

(** X18: Step 6A sums the per-key sums of the granular table. For every row of
    the aggregated table, when no payment or charge of its macro group
    (year, week, payer and the two E/M groups) is infinite, the payment
    and the charge amount are the sums over the detail rows of the macro
    group: the two-level aggregation loses and double counts no dollar,
    also where an invoice is filed under two benchmark keys. *)
Theorem agg_conserves_dollars (df : list Row) (a : Agg) :
  In a (agg df) ->
  let rows := group_rows macro_eqb macro_key df (a_key a) in
  Forall not_inf (map Payment_Amount rows) ->
  Forall not_inf (map Charge_Amount rows) ->
  feq (a_Payment_Amount a) (sum (map Payment_Amount rows)) /\
  feq (a_Charge_Amount a) (sum (map Charge_Amount rows)).
Proof.
  intros Ha rows Hp Hc. rewrite (agg_In _ _ Ha). simpl. rewrite !map_map. simpl.
  split; now apply macro_column_conserved.
Qed.

Lemma agg_conserves_dollars_witness :
  exists a, In a (agg double_keyed_invoice) /\
    feq (a_Payment_Amount a) (Fin 100) /\
    feq (a_Payment_Amount a)
        (sum (map Payment_Amount
                  (group_rows macro_eqb macro_key double_keyed_invoice (a_key a)))).
Proof.
  eexists. split; [left; reflexivity|]. split; [reflexivity|].
  apply (agg_conserves_dollars double_keyed_invoice).
  - left. reflexivity.
  - repeat constructor.
  - repeat constructor.
Defined.

End AggDollarFacts.
